(** * HubSpot integration: OAuth2 flow, credential cache and item normalizer

    A shallow embedding of [backend/integrations/hubspot.py].

    The module is glue around three outside services: the Redis cache, the
    provider's HTTP API and the wall clock.  Here they are explicit: the
    cache and the clock are fields of a [world] that every handler threads
    through, the network is an oracle handed to the handler, and every HTTP
    call that a handler makes is appended to a log kept in the world.

    Conventions of the model.
    - A Python [str] is a Rocq [string]; a character stands for the code
      point with the same number, so the model speaks about text in the
      range U+0000..U+00FF.
    - A Python object that came out of [json.loads] is a [value]; numbers
      are integers (floating point is outside the model).
    - An awaited coroutine is an ordinary call: the module never runs two
      of its own tasks at once. *)

From Stdlib Require Import ZArith NArith List String Ascii Bool Lia.
From Stdlib Require Import DecimalString DecimalN DecimalFacts.
From stdpp Require Import gmap strings.
Import ListNotations.
Open Scope string_scope.
Open Scope list_scope.
Open Scope Z_scope.

(** ** Text: the [str] methods the module uses *)

Module Text.

Definition code (c : ascii) : N := N_of_ascii c.

(** The double quote, U+0022. *)
Definition dquote : ascii := "034"%char.

Definition in_range (lo hi : N) (c : ascii) : bool :=
  ((lo <=? code c) && (code c <=? hi))%N.

(** [str.join] *)
Fixpoint join (sep : string) (l : list string) : string :=
  match l with
  | [] => ""
  | [s] => s
  | s :: rest => s +:+ sep +:+ join sep rest
  end.

(** The characters [str.strip()] removes. *)
Definition is_space (c : ascii) : bool :=
  in_range 9 13 c || in_range 28 32 c
  || (code c =? 133)%N || (code c =? 160)%N.

Fixpoint lstrip (s : string) : string :=
  match s with
  | String c s' => if is_space c then lstrip s' else s
  | EmptyString => EmptyString
  end.

Fixpoint rstrip (s : string) : string :=
  match s with
  | String c s' =>
      match rstrip s' with
      | EmptyString => if is_space c then EmptyString else String c EmptyString
      | r => String c r
      end
  | EmptyString => EmptyString
  end.

Definition strip (s : string) : string := rstrip (lstrip s).

(** [s.endswith('Z')] and [s[:-1]] *)
Fixpoint ends_with_char (c : ascii) (s : string) : bool :=
  match s with
  | EmptyString => false
  | String d EmptyString => Ascii.eqb c d
  | String _ s' => ends_with_char c s'
  end.

Fixpoint drop_last (s : string) : string :=
  match s with
  | EmptyString => EmptyString
  | String _ EmptyString => EmptyString
  | String c s' => String c (drop_last s')
  end.

(** ['.' in s] *)
Fixpoint contains_char (c : ascii) (s : string) : bool :=
  match s with
  | EmptyString => false
  | String d s' => Ascii.eqb c d || contains_char c s'
  end.

Definition lower_char (c : ascii) : ascii :=
  if in_range 65 90 c || (in_range 192 222 c && negb (code c =? 215)%N)
  then ascii_of_N (code c + 32) else c.

(** The capital of U+00DF is the two letters "Ss"; the capitals of U+00B5
    and U+00FF lie above U+00FF and those two letters are left as they
    are. *)
Definition title_char (c : ascii) : string :=
  if in_range 97 122 c || (in_range 224 254 c && negb (code c =? 247)%N)
  then String (ascii_of_N (code c - 32)) EmptyString
  else if (code c =? 223)%N then "Ss"
  else String c EmptyString.

Fixpoint lower (s : string) : string :=
  match s with
  | EmptyString => EmptyString
  | String c s' => String (lower_char c) (lower s')
  end.

(** [str.capitalize()] *)
Definition capitalize (s : string) : string :=
  match s with
  | EmptyString => EmptyString
  | String c s' => title_char c +:+ lower s'
  end.

Definition hex_digit (n : N) : ascii :=
  match String.get (N.to_nat n) "0123456789abcdef" with
  | Some c => c
  | None => "0"%char
  end.

(** Two lower-case hexadecimal digits, as in ['%02x']. *)
Definition hex2 (c : ascii) : string :=
  String (hex_digit (code c / 16)) (String (hex_digit (code c mod 16)) EmptyString).

(** [str(n)] for an [int]: decimal, with a minus sign below zero. *)
Definition str_of_N (n : N) : string := NilEmpty.string_of_uint (N.to_uint n).

Definition str_of_Z (z : Z) : string :=
  if z <? 0 then String "-" (str_of_N (Z.abs_N z)) else str_of_N (Z.abs_N z).

End Text.

(** ** Python objects *)

Module Py.

(** What [json.loads] can return: [None], [bool], [int], [str], [list]
    and [dict] with [str] keys.  A [dict] keeps its keys in insertion
    order and holds each key once. *)
#[local] Unset Elimination Schemes.
Inductive value : Type :=
| VNone
| VBool (b : bool)
| VInt (n : Z)
| VStr (s : string)
| VList (l : list value)
| VDict (d : list (string * value)).
#[local] Set Elimination Schemes.

Definition dict : Type := list (string * value).

(** [d.get(k)] on the entries of a dict *)
Fixpoint dict_get (k : string) (d : dict) : option value :=
  match d with
  | [] => None
  | (k', v) :: d' => if String.eqb k k' then Some v else dict_get k d'
  end.

(** [d[k] = v]: an existing key keeps its place, a new key goes last. *)
Fixpoint dict_set (k : string) (v : value) (d : dict) : dict :=
  match d with
  | [] => [(k, v)]
  | (k', v') :: d' =>
      if String.eqb k k' then (k, v) :: d' else (k', v') :: dict_set k v d'
  end.

(** [o.get(k, dflt)]; [None] is the [AttributeError] of an object that
    is not a dict. *)
Definition get (o : value) (k : string) (dflt : value) : option value :=
  match o with
  | VDict d => Some (default dflt (dict_get k d))
  | _ => None
  end.

(** [bool(o)] *)
Definition truthy (o : value) : bool :=
  match o with
  | VNone => false
  | VBool b => b
  | VInt n => negb (n =? 0)
  | VStr s => negb (String.eqb s "")
  | VList l => match l with [] => false | _ => true end
  | VDict d => match d with [] => false | _ => true end
  end.

Definition int_of_bool (b : bool) : Z := if b then 1 else 0.

(** [a == b].  A bool compares as the integer 0 or 1; two dicts are equal
    when they hold the same keys with equal values, in any order. *)
Fixpoint eqb (a b : value) {struct a} : bool :=
  match a, b with
  | VNone, VNone => true
  | VBool x, VBool y => Bool.eqb x y
  | VBool x, VInt n => int_of_bool x =? n
  | VInt m, VBool y => m =? int_of_bool y
  | VInt m, VInt n => m =? n
  | VStr s, VStr t => String.eqb s t
  | VList l, VList l' =>
      (fix all2 (l : list value) (l' : list value) {struct l} : bool :=
         match l, l' with
         | [], [] => true
         | x :: xs, y :: ys => eqb x y && all2 xs ys
         | _, _ => false
         end) l l'
  | VDict d, VDict d' =>
      (length d =? length d')%nat &&
      (fix all (d : dict) {struct d} : bool :=
         match d with
         | [] => true
         | (k, v) :: rest =>
             match dict_get k d' with
             | Some v' => eqb v v' && all rest
             | None => false
             end
         end) d
  | _, _ => false
  end.

(** [repr(s)] for a [str] *)
Definition printable (c : ascii) : bool :=
  Text.in_range 32 126 c || Text.in_range 161 172 c || Text.in_range 174 255 c.

Definition repr_char (quote c : ascii) : string :=
  if Ascii.eqb c "\" then "\\"
  else if Ascii.eqb c quote then String "\" (String quote EmptyString)
  else if Ascii.eqb c "009" then "\t"
  else if Ascii.eqb c "010" then "\n"
  else if Ascii.eqb c "013" then "\r"
  else if printable c then String c EmptyString
  else "\x" +:+ Text.hex2 c.

Fixpoint repr_chars (quote : ascii) (s : string) : string :=
  match s with
  | EmptyString => EmptyString
  | String c s' => repr_char quote c +:+ repr_chars quote s'
  end.

Definition repr_str (s : string) : string :=
  let quote : ascii :=
    if Text.contains_char "'" s && negb (Text.contains_char Text.dquote s)
    then Text.dquote else "'"%char in
  String quote (repr_chars quote s) +:+ String quote EmptyString.

(** [repr(o)] *)
Fixpoint repr (o : value) : string :=
  match o with
  | VNone => "None"
  | VBool true => "True"
  | VBool false => "False"
  | VInt n => Text.str_of_Z n
  | VStr s => repr_str s
  | VList l => "[" +:+ Text.join ", " (map repr l) +:+ "]"
  | VDict d =>
      "{" +:+ Text.join ", " (map (fun kv => repr_str (fst kv) +:+ ": " +:+ repr (snd kv)) d)
      +:+ "}"
  end.

(** [str(o)], which is what an f-string field [{o}] inserts. *)
Definition str (o : value) : string :=
  match o with
  | VStr s => s
  | _ => repr o
  end.

(** [a + b]; [None] is the [TypeError] of operands that do not add. *)
Definition add (a b : value) : option value :=
  match a, b with
  | VInt m, VInt n => Some (VInt (m + n))
  | VInt m, VBool y => Some (VInt (m + int_of_bool y))
  | VBool x, VInt n => Some (VInt (int_of_bool x + n))
  | VBool x, VBool y => Some (VInt (int_of_bool x + int_of_bool y))
  | VStr s, VStr t => Some (VStr (s +:+ t))
  | VList l, VList l' => Some (VList (l ++ l'))
  | _, _ => None
  end.

(** [n >= o] for an [int] [n]; [None] is the [TypeError] of an operand
    that does not compare with an int. *)
Definition int_ge (n : Z) (o : value) : option bool :=
  match o with
  | VInt m => Some (m <=? n)
  | VBool y => Some (int_of_bool y <=? n)
  | _ => None
  end.

(** [for x in o]: the elements a loop over [o] visits; [None] is the
    [TypeError] of an object that is not iterable. *)
Definition iterate (o : value) : option (list value) :=
  match o with
  | VList l => Some l
  | VDict d => Some (map (fun kv => VStr (fst kv)) d)
  | VStr s => Some (map (fun c => VStr (String c EmptyString)) (list_ascii_of_string s))
  | _ => None
  end.

(** The invariant of a Python object: no dict holds a key twice. *)
Fixpoint distinct (keys : list string) : bool :=
  match keys with
  | [] => true
  | k :: rest => negb (existsb (String.eqb k) rest) && distinct rest
  end.

Fixpoint well_formed (o : value) : bool :=
  match o with
  | VList l => forallb well_formed l
  | VDict d => distinct (map fst d) && forallb (fun kv => well_formed (snd kv)) d
  | _ => true
  end.

End Py.

(** ** [bytes], UTF-8 and Base64 *)

Definition bytes : Type := list ascii.

Module Utf8.

(** [s.encode('utf-8')]: one byte below U+0080, two bytes from there to
    U+00FF. *)
Definition encode_char (c : ascii) : bytes :=
  if (Text.code c <? 128)%N then [c]
  else [ascii_of_N (192 + Text.code c / 64); ascii_of_N (128 + Text.code c mod 64)].

Fixpoint encode (s : string) : bytes :=
  match s with
  | EmptyString => []
  | String c s' => encode_char c ++ encode s'
  end.

(** [b.decode('utf-8')]; [None] is [UnicodeDecodeError].  A lead byte
    0xC2 or 0xC3 with its continuation byte gives U+0080..U+00FF; a
    sequence of any other lead byte is either malformed or encodes a
    character above U+00FF, which this model does not hold. *)
Fixpoint decode (b : bytes) : option string :=
  match b with
  | [] => Some EmptyString
  | c :: b' =>
      if (Text.code c <? 128)%N then String c <$> decode b'
      else if Text.in_range 194 195 c then
        match b' with
        | d :: b'' =>
            if Text.in_range 128 191 d
            then String (ascii_of_N ((Text.code c - 192) * 64 + (Text.code d - 128)))
                   <$> decode b''
            else None
        | [] => None
        end
      else None
  end.

(** [s.encode('ascii')]; [None] is the error of a non-ASCII character. *)
Fixpoint encode_ascii (s : string) : option bytes :=
  match s with
  | EmptyString => Some []
  | String c s' => if (Text.code c <? 128)%N then cons c <$> encode_ascii s' else None
  end.

End Utf8.

Module Base64.

(** A group of six bits, most significant first. *)
Definition sextet : Type := (bool * bool * bool * bool * bool * bool)%type.

Definition alphabet : string :=
  "ABCDEFGHIJKLMNOPQRSTUVWXYZabcdefghijklmnopqrstuvwxyz0123456789+/".

Definition bit (b : bool) : nat := if b then 1%nat else 0%nat.

Definition sextet_index (s : sextet) : nat :=
  let '(b5, b4, b3, b2, b1, b0) := s in
  (32 * bit b5 + 16 * bit b4 + 8 * bit b3 + 4 * bit b2 + 2 * bit b1 + bit b0)%nat.

Definition sextet_of_index (i : nat) : sextet :=
  let n := N.of_nat i in
  (N.testbit n 5, N.testbit n 4, N.testbit n 3, N.testbit n 2, N.testbit n 1, N.testbit n 0).

Definition b2a_char (s : sextet) : ascii :=
  default "="%char (String.get (sextet_index s) alphabet).

Fixpoint index_of (c : ascii) (s : string) : option nat :=
  match s with
  | EmptyString => None
  | String d s' => if Ascii.eqb c d then Some 0%nat else S <$> index_of c s'
  end.

Definition a2b_char (c : ascii) : option sextet :=
  sextet_of_index <$> index_of c alphabet.

(** [binascii.b2a_base64]: three bytes give four characters; one or two
    bytes left over are completed with zero bits and ["="] padding. *)
Fixpoint b2a_base64 (data : bytes) : bytes :=
  match data with
  | [] => []
  | [Ascii a0 a1 a2 a3 a4 a5 a6 a7] =>
      [b2a_char (a7, a6, a5, a4, a3, a2);
       b2a_char (a1, a0, false, false, false, false); "="%char; "="%char]
  | [Ascii a0 a1 a2 a3 a4 a5 a6 a7; Ascii b0 b1 b2 b3 b4 b5 b6 b7] =>
      [b2a_char (a7, a6, a5, a4, a3, a2);
       b2a_char (a1, a0, b7, b6, b5, b4);
       b2a_char (b3, b2, b1, b0, false, false); "="%char]
  | Ascii a0 a1 a2 a3 a4 a5 a6 a7 :: Ascii b0 b1 b2 b3 b4 b5 b6 b7
      :: Ascii c0 c1 c2 c3 c4 c5 c6 c7 :: rest =>
      b2a_char (a7, a6, a5, a4, a3, a2)
      :: b2a_char (a1, a0, b7, b6, b5, b4)
      :: b2a_char (b3, b2, b1, b0, c7, c6)
      :: b2a_char (c5, c4, c3, c2, c1, c0)
      :: b2a_base64 rest
  end.

(** The decoder's position inside a group of four characters, with the
    bits of the group that are not yet part of an output byte. *)
Inductive quad : Type :=
| Q0
| Q1 (left : sextet)
| Q2 (l3 l2 l1 l0 : bool)
| Q3 (l1 l0 : bool).

Definition quad_pos (q : quad) : nat :=
  match q with Q0 => 0 | Q1 _ => 1 | Q2 _ _ _ _ => 2 | Q3 _ _ => 3 end%nat.

(** [binascii.a2b_base64] in its default mode: characters outside the
    alphabet are skipped, a complete run of padding ends the data, and
    input that stops inside a group is an error ([None]). *)
Fixpoint a2b_base64 (q : quad) (pads : nat) (s : bytes) : option bytes :=
  match s with
  | [] => match q with Q0 => Some [] | _ => None end
  | c :: s' =>
      if Ascii.eqb c "=" then
        if (2 <=? quad_pos q)%nat then
          if (4 <=? quad_pos q + S pads)%nat then Some []
          else a2b_base64 q (S pads) s'
        else a2b_base64 q pads s'
      else
        match a2b_char c with
        | None => a2b_base64 q pads s'
        | Some (x5, x4, x3, x2, x1, x0) =>
            match q with
            | Q0 => a2b_base64 (Q1 (x5, x4, x3, x2, x1, x0)) 0 s'
            | Q1 (l5, l4, l3, l2, l1, l0) =>
                cons (Ascii x4 x5 l0 l1 l2 l3 l4 l5) <$> a2b_base64 (Q2 x3 x2 x1 x0) 0 s'
            | Q2 l3 l2 l1 l0 =>
                cons (Ascii x2 x3 x4 x5 l0 l1 l2 l3) <$> a2b_base64 (Q3 x1 x0) 0 s'
            | Q3 l1 l0 =>
                cons (Ascii x0 x1 x2 x3 x4 x5 l0 l1) <$> a2b_base64 Q0 0 s'
            end
        end
  end.

Definition to_urlsafe (c : ascii) : ascii :=
  if Ascii.eqb c "+" then "-"%char else if Ascii.eqb c "/" then "_"%char else c.

Definition from_urlsafe (c : ascii) : ascii :=
  if Ascii.eqb c "-" then "+"%char else if Ascii.eqb c "_" then "/"%char else c.

(** [base64.urlsafe_b64encode] *)
Definition urlsafe_b64encode (data : bytes) : bytes :=
  map to_urlsafe (b2a_base64 data).

(** [base64.urlsafe_b64decode] of a [str]: the text must be ASCII, then
    ["-"] and ["_"] are read as ["+"] and ["/"]. *)
Definition urlsafe_b64decode (s : string) : option bytes :=
  match Utf8.encode_ascii s with
  | Some b => a2b_base64 Q0 0 (map from_urlsafe b)
  | None => None
  end.

End Base64.

(** ** [json.dumps] and [json.loads] *)

Module Json.
Import Py.

(** *** Serializer, with the defaults of [json.dumps]: [", "] and [": "]
    as separators and every character outside U+0020..U+007E escaped. *)

Definition escape_char (c : ascii) : string :=
  if Ascii.eqb c Text.dquote then String "\" (String Text.dquote EmptyString)
  else if Ascii.eqb c "\" then "\\"
  else if Ascii.eqb c "010" then "\n"
  else if Ascii.eqb c "013" then "\r"
  else if Ascii.eqb c "009" then "\t"
  else if Ascii.eqb c "012" then "\f"
  else if Ascii.eqb c "008" then "\b"
  else if Text.in_range 32 126 c then String c EmptyString
  else "\u00" +:+ Text.hex2 c.

Fixpoint escape (s : string) : string :=
  match s with
  | EmptyString => EmptyString
  | String c s' => escape_char c +:+ escape s'
  end.

Definition quote (s : string) : string :=
  String Text.dquote (escape s +:+ String Text.dquote EmptyString).

Fixpoint dumps (o : value) : string :=
  match o with
  | VNone => "null"
  | VBool true => "true"
  | VBool false => "false"
  | VInt n => Text.str_of_Z n
  | VStr s => quote s
  | VList l => "[" +:+ Text.join ", " (map dumps l) +:+ "]"
  | VDict d =>
      "{" +:+ Text.join ", " (map (fun kv => quote (fst kv) +:+ ": " +:+ dumps (snd kv)) d)
      +:+ "}"
  end.

(** *** Parser.  [None] is [json.JSONDecodeError], and also the answer
    for a document this model cannot hold: one with a floating-point
    number or with an escape of a character above U+00FF. *)

Definition is_ws (c : ascii) : bool :=
  Ascii.eqb c " " || Ascii.eqb c "009" || Ascii.eqb c "010" || Ascii.eqb c "013".

Fixpoint skip_ws (s : string) : string :=
  match s with
  | String c s' => if is_ws c then skip_ws s' else s
  | EmptyString => EmptyString
  end.

Definition is_digit (c : ascii) : bool := Text.in_range 48 57 c.

Definition hex_val (c : ascii) : option N :=
  if is_digit c then Some (Text.code c - 48)%N
  else if Text.in_range 97 102 c then Some (Text.code c - 87)%N
  else if Text.in_range 65 70 c then Some (Text.code c - 55)%N
  else None.

Definition hex4 (h1 h2 h3 h4 : ascii) : option N :=
  match hex_val h1, hex_val h2, hex_val h3, hex_val h4 with
  | Some a, Some b, Some c, Some d => Some (((a * 16 + b) * 16 + c) * 16 + d)%N
  | _, _, _, _ => None
  end.

(** The character a one-letter escape stands for. *)
Definition unescape (e : ascii) : option ascii :=
  if Ascii.eqb e Text.dquote then Some Text.dquote
  else if Ascii.eqb e "\" then Some "\"%char
  else if Ascii.eqb e "/" then Some "/"%char
  else if Ascii.eqb e "b" then Some "008"%char
  else if Ascii.eqb e "f" then Some "012"%char
  else if Ascii.eqb e "n" then Some "010"%char
  else if Ascii.eqb e "r" then Some "013"%char
  else if Ascii.eqb e "t" then Some "009"%char
  else None.

Definition push (c : ascii) (r : option (string * string)) : option (string * string) :=
  match r with
  | Some (t, rest) => Some (String c t, rest)
  | None => None
  end.

(** The body of a string literal, read from just after its opening quote;
    the result is the text and what follows the closing quote. *)
Fixpoint scan_string (s : string) : option (string * string) :=
  match s with
  | EmptyString => None
  | String c s' =>
      if Ascii.eqb c Text.dquote then Some (EmptyString, s')
      else if Ascii.eqb c "\" then
        match s' with
        | EmptyString => None
        | String e s'' =>
            match unescape e with
            | Some c' => push c' (scan_string s'')
            | None =>
                if Ascii.eqb e "u" then
                  match s'' with
                  | String h1 (String h2 (String h3 (String h4 s3))) =>
                      match hex4 h1 h2 h3 h4 with
                      | Some n =>
                          if (n <? 256)%N then push (ascii_of_N n) (scan_string s3)
                          else None
                      | None => None
                      end
                  | _ => None
                  end
                else None
            end
        end
      else if (Text.code c <? 32)%N then None
      else push c (scan_string s')
  end.

Fixpoint span_digits (s : string) : string * string :=
  match s with
  | String c s' =>
      if is_digit c then let '(d, r) := span_digits s' in (String c d, r)
      else (EmptyString, s)
  | EmptyString => (EmptyString, EmptyString)
  end.

(** The integer part of a number, [0|[1-9]\d*]. *)
Definition scan_nat (s : string) : option (N * string) :=
  match s with
  | String c s' =>
      if Ascii.eqb c "0" then Some (0%N, s')
      else if is_digit c then
        let '(d, r) := span_digits s in
        match NilEmpty.uint_of_string d with
        | Some u => Some (N.of_uint u, r)
        | None => None
        end
      else None
  | EmptyString => None
  end.

(** Whether a fraction [\.\d+] or an exponent [[eE][-+]?\d+] follows. *)
Definition float_tail (s : string) : bool :=
  match s with
  | String c (String d s') =>
      (Ascii.eqb c "." && is_digit d)
      || ((Ascii.eqb c "e" || Ascii.eqb c "E")
          && (is_digit d
              || ((Ascii.eqb d "+" || Ascii.eqb d "-")
                  && match s' with String d' _ => is_digit d' | EmptyString => false end)))
  | _ => false
  end.

Definition scan_number (s : string) : option (value * string) :=
  let r :=
    match s with
    | String c s' =>
        if Ascii.eqb c "-" then
          match scan_nat s' with
          | Some (n, rest) => Some (VInt (- Z.of_N n), rest)
          | None => None
          end
        else
          match scan_nat s with
          | Some (n, rest) => Some (VInt (Z.of_N n), rest)
          | None => None
          end
    | EmptyString => None
    end in
  match r with
  | Some (v, rest) => if float_tail rest then None else Some (v, rest)
  | None => None
  end.

Fixpoint strip_prefix (p s : string) : option string :=
  match p, s with
  | EmptyString, _ => Some s
  | String a p', String b s' => if Ascii.eqb a b then strip_prefix p' s' else None
  | _, EmptyString => None
  end.

Definition scan_atom (s : string) : option (value * string) :=
  match strip_prefix "null" s, strip_prefix "true" s, strip_prefix "false" s with
  | Some r, _, _ => Some (VNone, r)
  | _, Some r, _ => Some (VBool true, r)
  | _, _, Some r => Some (VBool false, r)
  | _, _, _ => scan_number s
  end.

(** [dict(pairs)]: a key that comes again keeps its first place and takes
    the later value. *)
Definition dict_of_pairs (pairs : list (string * value)) : dict :=
  fold_left (fun d kv => dict_set (fst kv) (snd kv) d) pairs [].

(** The scanner.  [fuel] bounds the nesting of calls; [loads] gives it
    more than the length of the text. *)
Fixpoint scan_once (fuel : nat) (s : string) {struct fuel} : option (value * string) :=
  match fuel with
  | O => None
  | S fuel' =>
      match s with
      | String c s' =>
          if Ascii.eqb c Text.dquote then
            match scan_string s' with
            | Some (t, r) => Some (VStr t, r)
            | None => None
            end
          else if Ascii.eqb c "{" then
            match skip_ws s' with
            | String c1 r =>
                if Ascii.eqb c1 "}" then Some (VDict [], r)
                else
                  match scan_members fuel' (String c1 r) with
                  | Some (pairs, r') => Some (VDict (dict_of_pairs pairs), r')
                  | None => None
                  end
            | EmptyString => None
            end
          else if Ascii.eqb c "[" then
            match skip_ws s' with
            | String c1 r =>
                if Ascii.eqb c1 "]" then Some (VList [], r)
                else
                  match scan_elements fuel' (String c1 r) with
                  | Some (l, r') => Some (VList l, r')
                  | None => None
                  end
            | EmptyString => None
            end
          else scan_atom s
      | EmptyString => None
      end
  end
with scan_elements (fuel : nat) (s : string) {struct fuel}
    : option (list value * string) :=
  match fuel with
  | O => None
  | S fuel' =>
      match scan_once fuel' s with
      | Some (v, r) =>
          match skip_ws r with
          | String c r' =>
              if Ascii.eqb c "]" then Some ([v], r')
              else if Ascii.eqb c "," then
                match scan_elements fuel' (skip_ws r') with
                | Some (l, r'') => Some (v :: l, r'')
                | None => None
                end
              else None
          | EmptyString => None
          end
      | None => None
      end
  end
with scan_members (fuel : nat) (s : string) {struct fuel}
    : option (list (string * value) * string) :=
  match fuel with
  | O => None
  | S fuel' =>
      match s with
      | String q s' =>
          if Ascii.eqb q Text.dquote then
            match scan_string s' with
            | Some (k, r) =>
                match skip_ws r with
                | String c r1 =>
                    if Ascii.eqb c ":" then
                      match scan_once fuel' (skip_ws r1) with
                      | Some (v, r2) =>
                          match skip_ws r2 with
                          | String c' r3 =>
                              if Ascii.eqb c' "}" then Some ([(k, v)], r3)
                              else if Ascii.eqb c' "," then
                                match scan_members fuel' (skip_ws r3) with
                                | Some (pairs, r4) => Some ((k, v) :: pairs, r4)
                                | None => None
                                end
                              else None
                          | EmptyString => None
                          end
                      | None => None
                      end
                    else None
                | EmptyString => None
                end
            | None => None
            end
          else None
      | EmptyString => None
      end
  end.

(** [json.loads]: one value, with white space allowed around it and
    nothing else after it. *)
Definition loads (s : string) : option value :=
  match scan_once (S (String.length s)) (skip_ws s) with
  | Some (v, r) =>
      match skip_ws r with
      | EmptyString => Some v
      | _ => None
      end
  | None => None
  end.

End Json.

(** ** Errors and results *)

(** The [detail] of the [HTTPException]s the module raises, one per raise
    site.  Where the source appends the text of a library exception to the
    message, that text is left out. *)
Inductive detail : Type :=
| OAuthError (description : string)  (* "HubSpot OAuth error: {description}" *)
| MissingParameters                  (* "Missing required parameters: code or state" *)
| InvalidStateParameter              (* "Invalid state parameter: ..." *)
| StateValidationFailed              (* "State validation failed" *)
| TokenExchangeFailed                (* "Failed to exchange code for tokens: ..." *)
| NoCredentialsFound                 (* "No HubSpot credentials found. Please reauthorize the integration." *)
| TokenRefreshFailed                 (* "Failed to refresh HubSpot token: ..." *)
| MissingAccessToken                 (* "Invalid credentials: missing access token" *)
| InvalidCredentialsFormat           (* "Invalid credentials format" *)
| FetchFailed.                       (* "Failed to fetch HubSpot data: ..." *)

(** Exceptions.  [HTTPException] is FastAPI's, [HTTPError] is the base class
    of everything httpx raises; the others are Python's own and are caught
    nowhere in the module unless a handler below says so. *)
Inductive exn : Type :=
| HTTPException (status_code : Z) (d : detail)
| HTTPError
| JSONDecodeError
| UnicodeDecodeError
| ValueError
| AttributeError
| KeyError
| TypeError.

Inductive outcome (A : Type) : Type :=
| Returned (a : A)
| Raised (e : exn).
Arguments Returned {A} a.
Arguments Raised {A} e.

#[global] Instance outcome_ret : MRet outcome := fun A a => Returned a.
#[global] Instance outcome_bind : MBind outcome := fun A B k m =>
  match m with
  | Returned a => k a
  | Raised e => Raised e
  end.

(** A library call that answers [None] raises [e]. *)
Definition or_raise {A : Type} (e : exn) (o : option A) : outcome A :=
  match o with
  | Some a => Returned a
  | None => Raised e
  end.

(** ** The cache *)

Module Redis.

(** Modelled from the spec: [redis_client.py] is not among the sources.
    The spec describes the cache as an external key-value store "accessed
    by simple get/set/delete with TTL"; an entry is the stored text and
    the TTL in seconds it was stored with.  Expiry is the store's own
    business: an entry that has expired is an entry that is no longer
    there. *)
Record entry : Type := { payload : string; ttl : Z }.

(** Modelled from the spec: set, which overwrites what the key held. *)
Definition add_key_value_redis (key value : string) (expire : Z)
    (c : gmap string entry) : gmap string entry :=
  <[key := {| payload := value; ttl := expire |}]> c.

(** Modelled from the spec: get, [None] for a key that is not there. *)
Definition get_value_redis (key : string) (c : gmap string entry) : option string :=
  payload <$> c !! key.

(** Modelled from the spec: delete. *)
Definition delete_key_redis (key : string) (c : gmap string entry) : gmap string entry :=
  delete key c.

End Redis.

(** ** HTTP *)

Module Http.

Inductive method : Type := GET | POST.

(** A request as the module hands it to httpx: [data] is the form of a
    POST and [params] the query of a GET, before httpx encodes them. *)
Record request : Type := {
  verb : method;
  url : string;
  headers : list (string * string);
  data : list (string * Py.value);
  params : list (string * Py.value)
}.

(** What comes back: no response at all (httpx raises a transport error)
    or a response with its status and body. *)
Inductive reply : Type :=
| NoResponse
| Response (status_code : Z) (text : string).

(** [response.raise_for_status()] lets a 2xx response pass. *)
Definition is_success (status_code : Z) : bool :=
  (200 <=? status_code) && (status_code <=? 299).

Definition failed (r : reply) : bool :=
  match r with
  | NoResponse => true
  | Response status_code _ => negb (is_success status_code)
  end.

(** The network's answer to a request, with the whole seconds that went
    by while the caller awaited it. *)
Record answer : Type := { result : reply; elapsed : N }.

(** The network: its answer to the [n]-th request of a run. *)
Definition network : Type := nat -> request -> answer.

End Http.

(** ** The world a handler runs in *)

Record world : Type := {
  cache : gmap string Redis.entry;
  clock : Z;                                   (* [int(time.time())] *)
  traffic : list (Http.request * Http.reply)   (* HTTP calls made, oldest first *)
}.

(** A handler: from the world before to its outcome and the world after.
    What a handler did to the world before it raised stays done. *)
Definition M (A : Type) : Type := world -> outcome A * world.

#[global] Instance M_ret : MRet M := fun A a w => (Returned a, w).
#[global] Instance M_bind : MBind M := fun A B k m w =>
  match m w with
  | (Returned a, w') => k a w'
  | (Raised e, w') => (Raised e, w')
  end.

Definition raise {A : Type} (e : exn) : M A := fun w => (Raised e, w).

Definition lift {A : Type} (o : outcome A) : M A := fun w => (o, w).

(** [try: body except ...: handler] *)
Definition try_except {A : Type} (body : M A) (handler : exn -> M A) : M A := fun w =>
  match body w with
  | (Returned a, w') => (Returned a, w')
  | (Raised e, w') => handler e w'
  end.

Definition get_value_redis (key : string) : M (option string) := fun w =>
  (Returned (Redis.get_value_redis key (cache w)), w).

Definition add_key_value_redis (key value : string) (expire : Z) : M unit := fun w =>
  (Returned tt,
   {| cache := Redis.add_key_value_redis key value expire (cache w);
      clock := clock w; traffic := traffic w |}).

Definition delete_key_redis (key : string) : M unit := fun w =>
  (Returned tt,
   {| cache := Redis.delete_key_redis key (cache w);
      clock := clock w; traffic := traffic w |}).

(** [int(time.time())] *)
Definition time_time : M Z := fun w => (Returned (clock w), w).

(** [await client.post(...)] or [await client.get(...)]: the call is logged,
    the clock moves on, and a missing response raises. *)
Definition send (net : Http.network) (req : Http.request) : M (Z * string) := fun w =>
  let a := net (length (traffic w)) req in
  let w' := {| cache := cache w;
               clock := clock w + Z.of_N (Http.elapsed a);
               traffic := traffic w ++ [(req, Http.result a)] |} in
  match Http.result a with
  | Http.NoResponse => (Raised HTTPError, w')
  | Http.Response status_code text => (Returned (status_code, text), w')
  end.

(** [response.raise_for_status()] *)
Definition raise_for_status (response : Z * string) : M unit :=
  if Http.is_success (fst response) then mret tt else raise HTTPError.

(** [response.json()] *)
Definition response_json (response : Z * string) : M Py.value :=
  lift (or_raise JSONDecodeError (Json.loads (snd response))).

(** ** URLs *)

Module Url.

(** [s.partition(c)]: the text before the first [c], and the text after
    it when there is one. *)
Fixpoint partition (c : ascii) (s : string) : string * option string :=
  match s with
  | EmptyString => (EmptyString, None)
  | String d s' =>
      if Ascii.eqb d c then (EmptyString, Some s')
      else let '(a, b) := partition c s' in (String d a, b)
  end.

(** [s.split(c)] *)
Fixpoint split (c : ascii) (s : string) : list string :=
  match s with
  | EmptyString => [EmptyString]
  | String d s' =>
      if Ascii.eqb d c then EmptyString :: split c s'
      else
        match split c s' with
        | h :: t => String d h :: t
        | [] => [String d EmptyString]
        end
  end.

(** The query of a URL: what stands between the first ["?"] and the
    fragment. *)
Definition query (url : string) : string :=
  match partition "?" (fst (partition "#" url)) with
  | (_, Some q) => q
  | (_, None) => EmptyString
  end.

(** The name-value pairs of a query string, blank values kept, as the
    text stands: percent-escapes and ["+"] are not decoded. *)
Definition parse_qsl (qs : string) : list (string * string) :=
  flat_map
    (fun name_value =>
       if String.eqb name_value "" then []
       else
         let '(name, v) := partition "=" name_value in
         [(name, default "" v)])
    (split "&" qs).

(** A character that stands for itself in a query value. *)
Definition literal (c : ascii) : bool :=
  negb (Ascii.eqb c "%" || Ascii.eqb c "+" || Ascii.eqb c "&" || Ascii.eqb c "#").

End Url.

(** ** [integrations/hubspot.py] *)

Module Hubspot.
Import Py.

(** *** Configuration *)

Definition CLIENT_ID : string := "".
Definition CLIENT_SECRET : string := "".
Definition REDIRECT_URI : string := "".

Definition SCOPES : list string :=
  ["crm.objects.contacts.read"; "crm.objects.companies.read"; "crm.objects.deals.read"].

Definition state_key (org_id user_id : string) : string :=
  "hubspot_state:" +:+ org_id +:+ ":" +:+ user_id.

Definition credentials_key (org_id user_id : string) : string :=
  "hubspot_credentials:" +:+ org_id +:+ ":" +:+ user_id.

Definition token_url : string := "https://api.hubapi.com/oauth/v1/token".

Definition form_headers : list (string * string) :=
  [("Content-Type", "application/x-www-form-urlencoded")].

(** *** [authorize_hubspot] *)

Definition state_data (nonce user_id org_id : string) : value :=
  VDict [("state", VStr nonce); ("user_id", VStr user_id); ("org_id", VStr org_id)].

(** [nonce] is what [secrets.token_urlsafe(32)] returned. *)
Definition authorize_hubspot (nonce : string) (user_id org_id : string) : M string :=
  let state_data := state_data nonce user_id org_id in
  encoded_state ← lift (or_raise UnicodeDecodeError
    (Utf8.decode (Base64.urlsafe_b64encode (Utf8.encode (Json.dumps state_data)))));
  add_key_value_redis (state_key org_id user_id) (Json.dumps state_data) 600;;
  let auth_url :=
    "https://app.hubspot.com/oauth/authorize"
    +:+ "?client_id=" +:+ CLIENT_ID
    +:+ "&redirect_uri=" +:+ REDIRECT_URI
    +:+ "&scope=" +:+ Text.join " " SCOPES
    +:+ "&state=" +:+ encoded_state in
  mret auth_url.

(** *** [oauth2callback_hubspot] *)

(** The callback request: its query parameters in the order of the query
    string.  [query_params.get] answers the last value of a name. *)
Record Request : Type := { query_params : list (string * string) }.

Fixpoint query_get (name : string) (q : list (string * string)) : option string :=
  match q with
  | [] => None
  | (k, v) :: q' =>
      match query_get name q' with
      | Some v' => Some v'
      | None => if String.eqb name k then Some v else None
      end
  end.

(** [bool(x)] and [str(x)] of a value that is a [str] or [None] *)
Definition present (x : option string) : bool :=
  match x with
  | Some s => negb (String.eqb s "")
  | None => false
  end.

Definition str_or_none (x : option string) : string :=
  match x with
  | Some s => s
  | None => "None"
  end.

(** [json.loads(base64.urlsafe_b64decode(encoded_state).decode('utf-8'))] *)
Definition decode_state (encoded_state : string) : outcome value :=
  raw ← or_raise ValueError (Base64.urlsafe_b64decode encoded_state);
  text ← or_raise UnicodeDecodeError (Utf8.decode raw);
  or_raise JSONDecodeError (Json.loads text).

Definition exchange_request (code : string) : Http.request :=
  {| Http.verb := Http.POST;
     Http.url := token_url;
     Http.headers := form_headers;
     Http.data := [("grant_type", VStr "authorization_code");
                   ("client_id", VStr CLIENT_ID);
                   ("client_secret", VStr CLIENT_SECRET);
                   ("redirect_uri", VStr REDIRECT_URI);
                   ("code", VStr code)];
     Http.params := [] |}.

(** The page that closes the popup window. *)
Definition close_window_page : string :=
  "<html><script>window.close();</script></html>".

Definition oauth2callback_hubspot (net : Http.network) (request : Request) : M string :=
  let q := query_params request in
  if present (query_get "error" q) then
    raise (HTTPException 400 (OAuthError (str_or_none (query_get "error_description" q))))
  else
  let code := query_get "code" q in
  let encoded_state := query_get "state" q in
  if negb (present code) || negb (present encoded_state) then
    raise (HTTPException 400 MissingParameters)
  else
  state_data ← try_except (lift (decode_state (default "" encoded_state)))
                 (fun _ => raise (HTTPException 400 InvalidStateParameter));
  user_id ← lift (or_raise AttributeError (get state_data "user_id" VNone));
  org_id ← lift (or_raise AttributeError (get state_data "org_id" VNone));
  saved_state ← get_value_redis (state_key (str org_id) (str user_id));
  matches ←
    (if negb (present saved_state) then mret false
     else
       nonce ← lift (or_raise AttributeError (get state_data "state" VNone));
       saved ← lift (or_raise JSONDecodeError (Json.loads (default "" saved_state)));
       saved_nonce ← lift (or_raise AttributeError (get saved "state" VNone));
       mret (eqb nonce saved_nonce));
  if negb matches then raise (HTTPException 400 StateValidationFailed)
  else
  try_except
    (response ← send net (exchange_request (default "" code));
     raise_for_status response;;
     tokens ← response_json response;
     add_key_value_redis (credentials_key (str org_id) (str user_id)) (Json.dumps tokens) 3600;;
     delete_key_redis (state_key (str org_id) (str user_id));;
     mret close_window_page)
    (fun e =>
       match e with
       | HTTPError => raise (HTTPException 400 TokenExchangeFailed)
       | _ => raise e
       end).

(** *** [get_hubspot_credentials] *)

Definition refresh_request (refresh_token : value) : Http.request :=
  {| Http.verb := Http.POST;
     Http.url := token_url;
     Http.headers := form_headers;
     Http.data := [("grant_type", VStr "refresh_token");
                   ("client_id", VStr CLIENT_ID);
                   ("client_secret", VStr CLIENT_SECRET);
                   ("refresh_token", refresh_token)];
     Http.params := [] |}.

(** [o[k]]: [KeyError] for a missing key, [TypeError] for an object that
    is not a dict. *)
Definition getitem (o : value) (k : string) : outcome value :=
  match o with
  | VDict d => or_raise KeyError (dict_get k d)
  | _ => Raised TypeError
  end.

(** [o[k] = v] *)
Definition setitem (o : value) (k : string) (v : value) : outcome value :=
  match o with
  | VDict d => Returned (VDict (dict_set k v d))
  | _ => Raised TypeError
  end.

Definition get_hubspot_credentials (net : Http.network) (user_id org_id : string)
    : M value :=
  credentials_json ← get_value_redis (credentials_key org_id user_id);
  if negb (present credentials_json) then
    raise (HTTPException 400 NoCredentialsFound)
  else
  credentials ← lift (or_raise JSONDecodeError (Json.loads (default "" credentials_json)));
  expires_in ← lift (or_raise AttributeError (get credentials "expires_in" VNone));
  both ← (if truthy expires_in
          then lift (or_raise AttributeError (get credentials "created_at" VNone))
          else mret expires_in);
  if truthy both then
    current_time ← time_time;
    created_at ← lift (getitem credentials "created_at");
    expires_in ← lift (getitem credentials "expires_in");
    expiry ← lift (or_raise TypeError (add created_at expires_in));
    expired ← lift (or_raise TypeError (int_ge current_time expiry));
    if (expired : bool) then
      try_except
        (refresh_token ← lift (getitem credentials "refresh_token");
         response ← send net (refresh_request refresh_token);
         raise_for_status response;;
         new_tokens ← response_json response;
         now ← time_time;
         new_tokens ← lift (setitem new_tokens "created_at" (VInt now));
         add_key_value_redis (credentials_key org_id user_id) (Json.dumps new_tokens) 3600;;
         mret new_tokens)
        (fun e =>
           match e with
           | HTTPError => raise (HTTPException 400 TokenRefreshFailed)
           | _ => raise e
           end)
    else mret credentials
  else mret credentials.

(** *** [parse_hubspot_datetime] and [create_integration_item_metadata_object] *)

Section Normalizer.

(** [datetime.strptime(text, format)], with [None] for its [ValueError];
    the datetime library is taken as it is. *)
Variable datetime : Type.
Variable strptime : string -> string -> option datetime.

(** Every exception inside the source's [try] ends in [None], among
    them the [AttributeError] of a value that is no [str]. *)
Definition parse_hubspot_datetime (dt_str : value) : option datetime :=
  if negb (truthy dt_str) then None
  else
    match dt_str with
    | VStr s =>
        let s := if Text.ends_with_char "Z" s then Text.drop_last s else s in
        if Text.contains_char "." s
        then strptime s "%Y-%m-%dT%H:%M:%S.%f"
        else strptime s "%Y-%m-%dT%H:%M:%S"
    | _ => None
    end.

(** Modelled from the spec: [integrations/integration_item.py] is not
    among the sources.  The spec gives an integration item the fields
    id, type, display name, creation and last-modified time and url,
    and the type-specific optional fields phone, email, domain and
    amount; an optional field is [None] where the returned dict has no
    such key. *)
Record IntegrationItem : Type := {
  id : string;
  type : string;
  name : value;
  creation_time : option datetime;
  last_modified_time : option datetime;
  url : value;
  phone : option value;
  email : option value;
  domain : option value;
  amount : option value
}.

(** [properties.get(k, dflt)] *)
Definition prop (properties : value) (k : string) (dflt : value) : outcome value :=
  or_raise AttributeError (get properties k dflt).

Definition display_name (properties : value) (item_id item_type : string)
    : outcome value :=
  if String.eqb item_type "contact" then
    firstname ← prop properties "firstname" (VStr "");
    lastname ← prop properties "lastname" (VStr "");
    let name := VStr (Text.strip (str firstname +:+ " " +:+ str lastname)) in
    name ← (if negb (truthy name)
            then prop properties "email" (VStr ("Contact " +:+ item_id))
            else mret name);
    email ← prop properties "email" VNone;
    mret (if truthy email then VStr (str name +:+ " (" +:+ str email +:+ ")") else name)
  else if String.eqb item_type "company" then
    name ← prop properties "name" (VStr ("Company " +:+ item_id));
    domain ← prop properties "domain" VNone;
    mret (if truthy domain then VStr (str name +:+ " (" +:+ str domain +:+ ")") else name)
  else if String.eqb item_type "deal" then
    name ← prop properties "dealname" (VStr ("Deal " +:+ item_id));
    amount ← prop properties "amount" VNone;
    mret (if truthy amount then VStr (str name +:+ " ($" +:+ str amount +:+ ")") else name)
  else
    mret (VStr (Text.capitalize item_type +:+ " " +:+ item_id)).

Definition create_integration_item_metadata_object (item : value) (item_type : string)
    : outcome IntegrationItem :=
  raw_id ← or_raise AttributeError (get item "id" (VStr ""));
  let item_id := str raw_id in
  properties ← or_raise AttributeError (get item "properties" (VDict []));
  display_name ← display_name properties item_id item_type;
  createdAt ← or_raise AttributeError (get item "createdAt" VNone);
  updatedAt ← or_raise AttributeError (get item "updatedAt" VNone);
  let integration_item :=
    {| id := item_id +:+ "_" +:+ item_type;
       type := item_type;
       name := display_name;
       creation_time := parse_hubspot_datetime createdAt;
       last_modified_time := parse_hubspot_datetime updatedAt;
       url := VNone;
       phone := None; email := None; domain := None; amount := None |} in
  if String.eqb item_type "contact" then
    phone ← prop properties "phone" VNone;
    email ← prop properties "email" VNone;
    mret {| id := id integration_item; type := type integration_item;
            name := name integration_item;
            creation_time := creation_time integration_item;
            last_modified_time := last_modified_time integration_item;
            url := url integration_item;
            phone := Some phone; email := Some email;
            domain := None; amount := None |}
  else if String.eqb item_type "company" then
    phone ← prop properties "phone" VNone;
    domain ← prop properties "domain" VNone;
    mret {| id := id integration_item; type := type integration_item;
            name := name integration_item;
            creation_time := creation_time integration_item;
            last_modified_time := last_modified_time integration_item;
            url := url integration_item;
            phone := Some phone; email := None;
            domain := Some domain; amount := None |}
  else if String.eqb item_type "deal" then
    amount ← prop properties "amount" VNone;
    mret {| id := id integration_item; type := type integration_item;
            name := name integration_item;
            creation_time := creation_time integration_item;
            last_modified_time := last_modified_time integration_item;
            url := url integration_item;
            phone := None; email := None;
            domain := None; amount := Some amount |}
  else mret integration_item.

(** *** [get_items_hubspot] *)

Definition list_request (access_token : value) (url : string) : Http.request :=
  {| Http.verb := Http.GET;
     Http.url := url;
     Http.headers := [("Authorization", "Bearer " +:+ str access_token);
                      ("Content-Type", "application/json")];
     Http.data := [];
     Http.params := [("limit", VInt 100)] |}.

Definition contacts_url : string := "https://api.hubapi.com/crm/v3/objects/contacts".
Definition companies_url : string := "https://api.hubapi.com/crm/v3/objects/companies".
Definition deals_url : string := "https://api.hubapi.com/crm/v3/objects/deals".

(** The loop [for x in results: items.append(create...(x, item_type))] *)
Fixpoint normalize_all (item_type : string) (results : list value)
    : outcome (list IntegrationItem) :=
  match results with
  | [] => mret []
  | x :: rest =>
      item ← create_integration_item_metadata_object x item_type;
      items ← normalize_all item_type rest;
      mret (item :: items)
  end.

(** One list endpoint: the GET, [raise_for_status], [json()], and the
    loop over [data.get('results', [])]. *)
Definition fetch (net : Http.network) (access_token : value) (url item_type : string)
    : M (list IntegrationItem) :=
  response ← send net (list_request access_token url);
  raise_for_status response;;
  data ← response_json response;
  results ← lift (or_raise AttributeError (get data "results" (VList [])));
  results ← lift (or_raise TypeError (iterate results));
  lift (normalize_all item_type results).

Definition get_items_hubspot (net : Http.network) (credentials : string)
    : M (list IntegrationItem) :=
  try_except
    (credentials ← lift (or_raise JSONDecodeError (Json.loads credentials));
     access_token ← lift (or_raise AttributeError (get credentials "access_token" VNone));
     if negb (truthy access_token) then
       raise (HTTPException 400 MissingAccessToken)
     else
       contacts ← fetch net access_token contacts_url "contact";
       companies ← fetch net access_token companies_url "company";
       deals ← fetch net access_token deals_url "deal";
       mret (contacts ++ companies ++ deals))
    (fun e =>
       match e with
       | JSONDecodeError => raise (HTTPException 400 InvalidCredentialsFormat)
       | HTTPError => raise (HTTPException 400 FetchFailed)
       | _ => raise e
       end).

End Normalizer.

Arguments id {datetime} _.
Arguments type {datetime} _.
Arguments name {datetime} _.
Arguments creation_time {datetime} _.
Arguments last_modified_time {datetime} _.
Arguments url {datetime} _.
Arguments phone {datetime} _.
Arguments email {datetime} _.
Arguments domain {datetime} _.
Arguments amount {datetime} _.
Arguments parse_hubspot_datetime {datetime} strptime dt_str.
Arguments create_integration_item_metadata_object {datetime} strptime item item_type.
Arguments normalize_all {datetime} strptime item_type results.
Arguments fetch {datetime} strptime net access_token url item_type.
Arguments get_items_hubspot {datetime} strptime net credentials.

End Hubspot.


(** ** Measures and side conditions used in the proofs *)

Module Measure.
Import Py.

(** What may follow a value inside a document that [Json.dumps] wrote:
    the end of the text, a separator or a closing bracket. *)
Definition after_value (rest : string) : bool :=
  match rest with
  | EmptyString => true
  | String c _ => Ascii.eqb c "," || Ascii.eqb c "]" || Ascii.eqb c "}"
  end.

(** Fuel that is enough for [Json.scan_once] to read a value back. *)
Fixpoint size (o : value) : nat :=
  match o with
  | VList l => S (fold_right (fun x n => S (size x + n)) 0%nat l)
  | VDict d => S (fold_right (fun kv n => S (size (snd kv) + n)) 0%nat d)
  | _ => 1%nat
  end.

(** A text that starts the way a serialized value does: not with white
    space and not with a closing bracket. *)
Definition opens_value (s : string) : Prop :=
  exists c t, s = String c t
              /\ Json.is_ws c = false /\ Ascii.eqb c "]" = false /\ Ascii.eqb c "}" = false.

(** The members of a serialized dict. *)
Definition member (kv : string * value) : string :=
  Json.quote (fst kv) +:+ ": " +:+ Json.dumps (snd kv).

Definition elements_size (l : list value) : nat :=
  fold_right (fun x n => S (size x + n)) 0%nat l.

Definition members_size (d : dict) : nat :=
  fold_right (fun kv n => S (size (snd kv) + n)) 0%nat d.

(** A value that the scanner reads back from its serialization, whatever
    follows it in the document. *)
Definition reads_back (o : value) : Prop :=
  forall fuel rest,
    well_formed o = true -> (size o <= fuel)%nat -> after_value rest = true ->
    Json.scan_once fuel (Json.dumps o +:+ rest) = Some (o, rest).

End Measure.


(** ** Reading the handlers *)

Module Reading.
Import Py.

(** The guard of the refresh branch of [get_hubspot_credentials]:
    [credentials.get('expires_in') and credentials.get('created_at')]. *)
Definition guard (credentials : dict) : bool :=
  truthy (default VNone (dict_get "expires_in" credentials))
  && truthy (default VNone (dict_get "created_at" credentials)).

(** The world after one more HTTP call. *)
Definition after_call (net : Http.network) (req : Http.request) (w : world) : world :=
  let a := net (length (traffic w)) req in
  {| cache := cache w;
     clock := clock w + Z.of_N (Http.elapsed a);
     traffic := traffic w ++ [(req, Http.result a)] |}.

Definition with_cache (c : gmap string Redis.entry) (w : world) : world :=
  {| cache := c; clock := clock w; traffic := traffic w |}.

(** What the callback checks before it asks for tokens: the request
    carries a state that decodes to [state_data], a blob is cached under
    the state key that [state_data] names, and the nonce of the blob
    equals the nonce of [state_data]. *)
Definition state_accepted (request : Hubspot.Request) (w : world)
    (state_data user_id org_id : value) : Prop :=
  Hubspot.decode_state (default "" (Hubspot.query_get "state" (Hubspot.query_params request)))
    = Returned state_data
  /\ get state_data "user_id" VNone = Some user_id
  /\ get state_data "org_id" VNone = Some org_id
  /\ exists entry saved nonce saved_nonce,
      cache w !! Hubspot.state_key (str org_id) (str user_id) = Some entry
      /\ Json.loads (Redis.payload entry) = Some saved
      /\ get state_data "state" VNone = Some nonce
      /\ get saved "state" VNone = Some saved_nonce
      /\ eqb nonce saved_nonce = true.

(** The opposite: nothing is cached under the state key that
    [state_data] names, or the cached blob is empty, or its nonce is not
    the nonce of [state_data]. *)
Definition state_rejected (w : world) (state_data user_id org_id : value) : Prop :=
  match cache w !! Hubspot.state_key (str org_id) (str user_id) with
  | None => True
  | Some entry =>
      Redis.payload entry = ""
      \/ exists saved nonce saved_nonce,
          Json.loads (Redis.payload entry) = Some saved
          /\ get state_data "state" VNone = Some nonce
          /\ get saved "state" VNone = Some saved_nonce
          /\ eqb nonce saved_nonce = false
  end.

(** The records a list endpoint's body holds: the elements that the loop
    over [response.json().get('results', [])] visits. *)
Definition results_of (body : string) : option (list value) :=
  data ← Json.loads body;
  results ← get data "results" (VList []);
  iterate results.

End Reading.


(** ** Sample worlds and networks *)

Module Sample.
Import Py Hubspot.

(** The token response as the provider sends it and as the callback stores
    it. *)
Definition stored_by_callback : dict :=
  [("access_token", VStr "new"); ("refresh_token", VStr "r2"); ("expires_in", VInt 1800)].

Definition token_body : string := Json.dumps (VDict stored_by_callback).

Definition refusal_body : string := Json.dumps (VDict [("status", VStr "error")]).

(** A provider that answers every request with fresh tokens, after two
    seconds. *)
Definition net_ok : Http.network := fun _ _ =>
  {| Http.result := Http.Response 200 token_body; Http.elapsed := 2 |}.

(** A provider that refuses every request. *)
Definition net_401 : Http.network := fun _ _ =>
  {| Http.result := Http.Response 401 refusal_body; Http.elapsed := 1 |}.

Definition stored : dict :=
  [("access_token", VStr "old"); ("refresh_token", VStr "r1");
   ("expires_in", VInt 1800); ("created_at", VInt 1700000000)].

Definition world_with (record : value) (now : Z) : world :=
  {| cache := {[credentials_key "o1" "u1" :=
                  {| Redis.payload := Json.dumps record; Redis.ttl := 3600 |}]};
     clock := now;
     traffic := [] |}.

(** The record read while it is still valid, and after it has expired. *)
Definition world_fresh : world := world_with (VDict stored) 1700000100.
Definition world_expired : world := world_with (VDict stored) 1700001800.

(** A record that expires the moment it is created. *)
Definition stored_zero : dict :=
  [("access_token", VStr "old"); ("refresh_token", VStr "r1");
   ("expires_in", VInt 0); ("created_at", VInt 1700000000)].

Definition world_zero : world := world_with (VDict stored_zero) 1700000100.

(** The world after [authorize_hubspot] with nonce "N0nce", and two
    callback requests: the one the provider sends back, and one whose
    state carries another nonce. *)
Definition world_authorized : world :=
  {| cache := {[state_key "o1" "u1" :=
                  {| Redis.payload := Json.dumps (state_data "N0nce" "u1" "o1");
                     Redis.ttl := 600 |}]};
     clock := 1700000000;
     traffic := [] |}.

Definition encode_state (state_data : value) : string :=
  string_of_list_ascii (Base64.urlsafe_b64encode (Utf8.encode (Json.dumps state_data))).

Definition request_back : Request :=
  {| query_params := [("code", "c0de");
                      ("state", encode_state (state_data "N0nce" "u1" "o1"))] |}.

Definition request_forged : Request :=
  {| query_params := [("code", "c0de");
                      ("state", encode_state (state_data "guess" "u1" "o1"))] |}.

(** Provider records. *)
Definition contact : value :=
  VDict [("id", VStr "1");
         ("properties", VDict [("firstname", VStr ""); ("lastname", VStr "");
                               ("email", VStr "a@b.com")])].

Definition company : dict :=
  [("id", VStr "7"); ("properties", VDict [("name", VStr "Acme")])].

Definition no_dates : string -> string -> option unit := fun _ _ => None.

(** A provider that serves one contact, one company and one deal, and
    one whose companies endpoint is down. *)
Definition ada : value :=
  VDict [("id", VStr "1");
         ("properties", VDict [("firstname", VStr "Ada"); ("lastname", VStr "L");
                               ("email", VStr "a@b.com")])].
Definition acme : value := VDict company.
Definition big : value :=
  VDict [("id", VStr "9");
         ("properties", VDict [("dealname", VStr "Big"); ("amount", VStr "10")])].

Definition ada_item : IntegrationItem unit :=
  {| id := "1_contact"; type := "contact"; name := VStr "Ada L (a@b.com)";
     creation_time := None; last_modified_time := None; url := VNone;
     phone := Some VNone; email := Some (VStr "a@b.com");
     domain := None; amount := None |}.
Definition acme_item : IntegrationItem unit :=
  {| id := "7_company"; type := "company"; name := VStr "Acme";
     creation_time := None; last_modified_time := None; url := VNone;
     phone := Some VNone; email := None; domain := Some VNone; amount := None |}.
Definition big_item : IntegrationItem unit :=
  {| id := "9_deal"; type := "deal"; name := VStr "Big ($10)";
     creation_time := None; last_modified_time := None; url := VNone;
     phone := None; email := None; domain := None; amount := Some (VStr "10") |}.

Definition page (records : list value) : string :=
  Json.dumps (VDict [("results", VList records)]).

Definition contacts_body : string := page [ada].
Definition companies_body : string := page [acme].
Definition deals_body : string := page [big].

Definition net_crm : Http.network := fun n _ =>
  {| Http.result :=
       Http.Response 200
         (match n with
          | O => contacts_body
          | S O => companies_body
          | _ => deals_body
          end);
     Http.elapsed := 1 |}.

Definition net_crm_broken : Http.network := fun n _ =>
  {| Http.result :=
       match n with
       | O => Http.Response 200 contacts_body
       | _ => Http.Response 503 ""
       end;
     Http.elapsed := 1 |}.

Definition world_empty : world := {| cache := ∅; clock := 1700000000; traffic := [] |}.

Definition access : string := Json.dumps (VDict [("access_token", VStr "tok")]).

End Sample.


(** ** The consent flow from end to end *)

Module Flow.
Import Py Hubspot Reading.

(** The [state] parameter that [authorize_hubspot] puts into the URL. *)
Definition encoded_state (nonce user_id org_id : string) : string :=
  string_of_list_ascii
    (Base64.urlsafe_b64encode (Utf8.encode (Json.dumps (state_data nonce user_id org_id)))).

(** The URL that [authorize_hubspot] builds around it. *)
Definition auth_url (encoded_state : string) : string :=
  "https://app.hubspot.com/oauth/authorize"
  +:+ "?client_id=" +:+ CLIENT_ID
  +:+ "&redirect_uri=" +:+ REDIRECT_URI
  +:+ "&scope=" +:+ Text.join " " SCOPES
  +:+ "&state=" +:+ encoded_state.

(** The world after [authorize_hubspot]. *)
Definition authorized (nonce user_id org_id : string) (w : world) : world :=
  with_cache
    (<[state_key org_id user_id :=
         {| Redis.payload := Json.dumps (state_data nonce user_id org_id);
            Redis.ttl := 600 |}]> (cache w))
    w.

(** The request the provider sends back after consent. *)
Definition callback_request (code encoded_state : string) : Request :=
  {| query_params := [("code", code); ("state", encoded_state)] |}.

End Flow.


(** ** More sample data: requests, records and pages off the happy path *)

Module Scenario.
Import Py Hubspot Reading Sample.




(** A stored record that has expired and holds no refresh token. *)
Definition stored_without_refresh_token : dict :=
  [("access_token", VStr "old"); ("expires_in", VInt 1800); ("created_at", VInt 1700000000)].

(** A [strptime] that answers with what it was asked to parse. *)
Definition echo : string -> string -> option (string * string) :=
  fun text format => Some (text, format).

(** Records whose names the provider sends as [null]. *)
Definition nameless_contact : dict := [("firstname", VNone); ("lastname", VNone)].
Definition nameless_company : dict := [("name", VNone); ("domain", VStr "acme.io")].
Definition blank_company : dict := [("name", VNone)].


(** A provider whose pages have no [results], and one whose [results]
    are [null]. *)
Definition bare_page : dict := [("total", VInt 0)].
Definition null_page : dict := [("results", VNone)].

Definition net_page (page : dict) : Http.network := fun _ _ =>
  {| Http.result := Http.Response 200 (Json.dumps (VDict page)); Http.elapsed := 1 |}.

End Scenario.


(** * Properties of the library layer *)

Lemma list_ind3 {A : Type} (P : list A -> Prop) :
  P [] -> (forall a, P [a]) -> (forall a b, P [a; b]) ->
  (forall a b c l, P l -> P (a :: b :: c :: l)) ->
  forall l, P l.
Proof.
  intros H0 H1 H2 H3. fix IH 1.
  intros [|a [|b [|c l]]];
    [apply H0 | apply H1 | apply H2 | apply H3, IH].
Qed.

Module Base64Facts.
Import Base64.

Ltac each_sextet s :=
  destruct s as [[[[[[] []] []] []] []] []].

Lemma a2b_b2a_char (s : sextet) : a2b_char (b2a_char s) = Some s.
Proof. each_sextet s; reflexivity. Qed.

Lemma b2a_char_not_pad (s : sextet) : Ascii.eqb (b2a_char s) "=" = false.
Proof. each_sextet s; reflexivity. Qed.

Lemma urlsafe_b2a_char (s : sextet) : from_urlsafe (to_urlsafe (b2a_char s)) = b2a_char s.
Proof. each_sextet s; reflexivity. Qed.

Lemma to_urlsafe_b2a_char_ascii (s : sextet) :
  (Text.code (to_urlsafe (b2a_char s)) <? 128)%N = true.
Proof. each_sextet s; reflexivity. Qed.

Lemma to_urlsafe_b2a_char_literal (s : sextet) :
  Url.literal (to_urlsafe (b2a_char s)) = true.
Proof. each_sextet s; reflexivity. Qed.

#[local] Arguments b2a_char : simpl never.

Lemma urlsafe_there_and_back (data : bytes) :
  map from_urlsafe (urlsafe_b64encode data) = b2a_base64 data.
Proof.
  unfold urlsafe_b64encode.
  induction data as [| [] | [] [] | [] [] [] l IH] using list_ind3; cbn [b2a_base64 map];
    rewrite ?urlsafe_b2a_char; try reflexivity.
  now rewrite IH.
Qed.

Lemma a2b_b2a_base64 (data : bytes) : a2b_base64 Q0 0 (b2a_base64 data) = Some data.
Proof.
  induction data as [| [] | [] [] | [] [] [] l IH] using list_ind3;
    cbn [b2a_base64 a2b_base64];
    rewrite ?b2a_char_not_pad, ?a2b_b2a_char; cbn; rewrite ?b2a_char_not_pad, ?a2b_b2a_char;
    cbn; rewrite ?b2a_char_not_pad, ?a2b_b2a_char; cbn;
    rewrite ?b2a_char_not_pad, ?a2b_b2a_char; cbn; try reflexivity.
  now rewrite IH.
Qed.

(** Every character the encoder writes is ASCII and needs no escaping in
    a URL. *)
Lemma urlsafe_b64encode_plain (data : bytes) :
  Forall (fun c => (Text.code c <? 128)%N = true /\ Url.literal c = true)
    (urlsafe_b64encode data).
Proof.
  unfold urlsafe_b64encode.
  induction data as [| [] | [] [] | [] [] [] l IH] using list_ind3; cbn [b2a_base64 map];
    repeat (constructor;
            [first [split; [apply to_urlsafe_b2a_char_ascii | apply to_urlsafe_b2a_char_literal]
                   | split; reflexivity] |]);
    first [constructor | exact IH].
Qed.

End Base64Facts.

Lemma append_cons (x : ascii) (a b : string) : String x a +:+ b = String x (a +:+ b).
Proof. reflexivity. Qed.

Lemma append_assoc (a b c : string) : (a +:+ b) +:+ c = a +:+ (b +:+ c).
Proof.
  induction a as [|x a IH]; [reflexivity |].
  now rewrite !append_cons, IH.
Qed.

Lemma append_nil_r (a : string) : a +:+ "" = a.
Proof.
  induction a as [|x a IH]; [reflexivity |].
  now rewrite append_cons, IH.
Qed.

Lemma length_append (a b : string) :
  String.length (a +:+ b) = (String.length a + String.length b)%nat.
Proof.
  induction a as [|x a IH]; [reflexivity |].
  rewrite append_cons. cbn [String.length]. now rewrite IH.
Qed.

Ltac each_ascii c :=
  destruct c as [[] [] [] [] [] [] [] []].

Module Utf8Facts.
Import Utf8.

Lemma decode_encode_char (c : ascii) (b : bytes) :
  decode (encode_char c ++ b) = String c <$> decode b.
Proof. each_ascii c; reflexivity. Qed.

Lemma decode_encode (s : string) : decode (encode s) = Some s.
Proof.
  induction s as [|c s IH]; cbn [encode]; [reflexivity |].
  now rewrite decode_encode_char, IH.
Qed.

Lemma decode_ascii (b : bytes) :
  Forall (fun c => (Text.code c <? 128)%N = true) b ->
  decode b = Some (string_of_list_ascii b).
Proof.
  induction 1 as [|c b Hc _ IH]; cbn [decode string_of_list_ascii]; [reflexivity |].
  now rewrite Hc, IH.
Qed.

Lemma encode_ascii_of_ascii (b : bytes) :
  Forall (fun c => (Text.code c <? 128)%N = true) b ->
  encode_ascii (string_of_list_ascii b) = Some b.
Proof.
  induction 1 as [|c b Hc _ IH]; cbn [encode_ascii string_of_list_ascii]; [reflexivity |].
  now rewrite Hc, IH.
Qed.

End Utf8Facts.

Module JsonFacts.
Import Py Json Measure.

(** *** Strings *)

Lemma scan_escape_char (c : ascii) (s : string) :
  scan_string (escape_char c +:+ s) = push c (scan_string s).
Proof. each_ascii c; reflexivity. Qed.

Lemma scan_string_escape (s rest : string) :
  scan_string (escape s +:+ String Text.dquote rest) = Some (s, rest).
Proof.
  induction s as [|c s IH]; cbn [escape]; [reflexivity |].
  now rewrite append_assoc, scan_escape_char, IH.
Qed.

Lemma scan_quote (s rest : string) :
  exists t, quote s +:+ rest = String Text.dquote t /\ scan_string t = Some (s, rest).
Proof.
  exists (escape s +:+ String Text.dquote rest). split.
  - unfold quote. now rewrite append_cons, append_assoc.
  - apply scan_string_escape.
Qed.

End JsonFacts.

Module NumberFacts.
Import Py Json Measure.

Lemma after_value_cases (rest : string) :
  after_value rest = true ->
  rest = "" \/ exists r, rest = String "," r \/ rest = String "]" r \/ rest = String "}" r.
Proof.
  destruct rest as [|c r]; [now left |]. cbn [after_value]. intros H. right. exists r.
  destruct (Ascii.eqb_spec c ","); [subst; auto |].
  destruct (Ascii.eqb_spec c "]"); [subst; auto |].
  destruct (Ascii.eqb_spec c "}"); [subst; auto | discriminate].
Qed.

Ltac after_value_cases H :=
  apply after_value_cases in H; destruct H as [-> | [? [-> | [-> | ->]]]].

Lemma span_digits_uint (u : Decimal.uint) (rest : string) :
  after_value rest = true ->
  span_digits (NilEmpty.string_of_uint u +:+ rest) = (NilEmpty.string_of_uint u, rest).
Proof.
  intros H. induction u as [|u IH|u IH|u IH|u IH|u IH|u IH|u IH|u IH|u IH|u IH];
    cbn [NilEmpty.string_of_uint];
    try (rewrite append_cons; cbn [span_digits]; change (is_digit _) with true;
         cbn iota; now rewrite IH).
  after_value_cases H; reflexivity.
Qed.

Lemma to_uint_head (p : positive) :
  match Pos.to_uint p with
  | Decimal.Nil | Decimal.D0 _ => False
  | _ => True
  end.
Proof.
  pose proof (DecimalPos.Unsigned.to_of (Pos.to_uint p)) as H.
  rewrite DecimalPos.Unsigned.of_to in H. cbn [N.to_uint] in H.
  destruct (Pos.to_uint p) as [|u| | | | | | | | |] eqn:E; try exact I.
  - now apply DecimalPos.Unsigned.to_uint_nonnil in E.
  - rewrite DecimalFacts.unorm_D0 in H. unfold Decimal.unorm in H.
    destruct (Decimal.nzhead u) eqn:Eu; try discriminate.
    + injection H as Hu. subst u. now apply DecimalPos.Unsigned.to_uint_nonzero in E.
    + now apply DecimalFacts.nzhead_nonzero in Eu.
Qed.

Lemma scan_nat_str_of_N (n : N) (rest : string) :
  after_value rest = true ->
  scan_nat (Text.str_of_N n +:+ rest) = Some (n, rest).
Proof.
  intros H. destruct n as [|p]; [reflexivity |].
  unfold Text.str_of_N. cbn [N.to_uint].
  pose proof (to_uint_head p) as Hh.
  pose proof (DecimalPos.Unsigned.of_to p) as Hp.
  pose proof (span_digits_uint (Pos.to_uint p) rest H) as Hs.
  pose proof (NilEmpty.usu (Pos.to_uint p)) as Hu.
  destruct (Pos.to_uint p) as [|u|u|u|u|u|u|u|u|u|u]; try destruct Hh;
    cbn [NilEmpty.string_of_uint] in *; rewrite append_cons in *;
    unfold scan_nat; change (Ascii.eqb _ "0") with false; change (is_digit _) with true;
    cbn iota; rewrite Hs, Hu; unfold N.of_uint; now rewrite Hp.
Qed.

Lemma str_of_N_head (n : N) :
  exists c t, Text.str_of_N n = String c t /\ is_digit c = true.
Proof.
  unfold Text.str_of_N. destruct n as [|p]; [now exists "0"%char, "" |].
  cbn [N.to_uint]. pose proof (to_uint_head p) as Hh.
  destruct (Pos.to_uint p); try destruct Hh; cbn [NilEmpty.string_of_uint]; eauto.
Qed.

Lemma float_tail_after_value (rest : string) :
  after_value rest = true -> float_tail rest = false.
Proof.
  intros H. after_value_cases H; try reflexivity;
    match goal with |- float_tail (String _ ?r) = _ => destruct r; reflexivity end.
Qed.

Lemma scan_number_str_of_Z (z : Z) (rest : string) :
  after_value rest = true ->
  scan_number (Text.str_of_Z z +:+ rest) = Some (VInt z, rest).
Proof.
  intros H. unfold Text.str_of_Z, scan_number.
  destruct (Z.ltb_spec z 0) as [Hz|Hz].
  - rewrite append_cons. change (Ascii.eqb "-" "-") with true. cbn iota.
    rewrite (scan_nat_str_of_N _ _ H), (float_tail_after_value _ H).
    do 3 f_equal. lia.
  - destruct (str_of_N_head (Z.abs_N z)) as (c & t & E & Hc).
    pose proof (scan_nat_str_of_N (Z.abs_N z) rest H) as Hn.
    rewrite E in *. rewrite append_cons in *.
    assert (Ascii.eqb c "-" = false) as ->.
    { destruct (Ascii.eqb_spec c "-"); [subst; discriminate | reflexivity]. }
    rewrite Hn, (float_tail_after_value _ H). do 3 f_equal. lia.
Qed.

(** The head of a number is not one of the characters that open a
    string, an object or an array, nor the start of a literal. *)
Lemma scan_once_number (fuel : nat) (z : Z) (rest : string) :
  after_value rest = true ->
  scan_once (S fuel) (Text.str_of_Z z +:+ rest) = Some (VInt z, rest).
Proof.
  intros H. pose proof (scan_number_str_of_Z z rest H) as Hn.
  assert (exists c t, Text.str_of_Z z = String c t
                      /\ (is_digit c = true \/ c = "-"%char)) as (c & t & E & Hc).
  { unfold Text.str_of_Z. destruct (z <? 0); [eauto |].
    destruct (str_of_N_head (Z.abs_N z)) as (c & t & E & Hc). eauto. }
  rewrite E in *. rewrite append_cons in *. cbn [scan_once].
  assert (Ascii.eqb c Text.dquote = false /\ Ascii.eqb c "{" = false /\ Ascii.eqb c "[" = false
          /\ Ascii.eqb c "n" = false /\ Ascii.eqb c "t" = false /\ Ascii.eqb c "f" = false)
    as (-> & -> & -> & Hn1 & Hn2 & Hn3).
  { destruct Hc as [Hc | ->]; [| now repeat split].
    repeat split;
      match goal with
      | |- Ascii.eqb c ?x = false =>
          destruct (Ascii.eqb_spec c x); [subst; discriminate | reflexivity]
      end. }
  unfold scan_atom. cbn [strip_prefix]. rewrite Ascii.eqb_sym, Hn1.
  rewrite (Ascii.eqb_sym "t"), Hn2, (Ascii.eqb_sym "f"), Hn3. exact Hn.
Qed.

End NumberFacts.

Module DumpsLoads.
Import Py Json Measure.

Lemma value_induction (P : value -> Prop) :
  P VNone -> (forall b, P (VBool b)) -> (forall n, P (VInt n)) -> (forall s, P (VStr s)) ->
  (forall l, List.Forall P l -> P (VList l)) ->
  (forall d, List.Forall (fun kv => P (snd kv)) d -> P (VDict d)) ->
  forall o, P o.
Proof.
  intros HN HB HI HS HL HD.
  refine (fix IH (o : value) : P o :=
            match o with
            | VNone => HN
            | VBool b => HB b
            | VInt n => HI n
            | VStr s => HS s
            | VList l =>
                HL l ((fix all (l : list value) : List.Forall P l :=
                         match l with
                         | [] => @List.Forall_nil _ P
                         | x :: xs => @List.Forall_cons _ P x xs (IH x) (all xs)
                         end) l)
            | VDict d =>
                HD d ((fix all (d : list (string * value))
                        : List.Forall (fun kv => P (snd kv)) d :=
                         match d with
                         | [] => @List.Forall_nil _ _
                         | kv :: rest => @List.Forall_cons _ _ kv rest (IH (snd kv)) (all rest)
                         end) d)
            end).
Qed.

(** *** Shape of the serializer's output *)

Lemma digit_opens (c : ascii) (t : string) : is_digit c = true -> opens_value (String c t).
Proof.
  intros H. exists c, t. split; [reflexivity |].
  repeat split;
    [unfold is_ws; repeat (apply orb_false_intro) |..];
    match goal with
    | |- Ascii.eqb c ?x = false =>
        destruct (Ascii.eqb_spec c x); [subst; discriminate | reflexivity]
    end.
Qed.

Lemma dumps_head (o : value) : opens_value (dumps o).
Proof.
  destruct o as [|[]|n|s|l|d]; cbn [dumps]; try (do 2 eexists; split; [reflexivity | easy]).
  unfold Text.str_of_Z. destruct (n <? 0); [do 2 eexists; split; [reflexivity | easy] |].
  destruct (NumberFacts.str_of_N_head (Z.abs_N n)) as (c & t & -> & Hc).
  now apply digit_opens.
Qed.

Lemma opens_value_append (s rest : string) : opens_value s -> opens_value (s +:+ rest).
Proof. intros (c & t & -> & H). exists c, (t +:+ rest). now rewrite append_cons. Qed.

Lemma skip_ws_opens (s : string) : opens_value s -> skip_ws s = s.
Proof. intros (c & t & -> & Hw & _). cbn [skip_ws]. now rewrite Hw. Qed.

(** *** Reading back what the serializer wrote *)

Lemma join_cons2 (sep x y : string) (l : list string) :
  Text.join sep (x :: y :: l) = x +:+ sep +:+ Text.join sep (y :: l).
Proof. reflexivity. Qed.

Lemma dict_set_fresh (k : string) (v : value) (d : dict) :
  existsb (String.eqb k) (map fst d) = false -> dict_set k v d = d ++ [(k, v)].
Proof.
  induction d as [|[k' v'] d IH]; cbn; [reflexivity |].
  intros [H1 H2]%orb_false_elim. now rewrite H1, IH.
Qed.

Lemma fresh_after_append (k : string) (v : value) (acc : dict) (keys : list string) :
  existsb (String.eqb k) keys = false ->
  forallb (fun k0 => negb (existsb (String.eqb k0) (map fst acc))) keys = true ->
  forallb (fun k0 => negb (existsb (String.eqb k0) (map fst (acc ++ [(k, v)])))) keys = true.
Proof.
  induction keys as [|k' keys IH]; cbn; [reflexivity |].
  intros [Hkk Hk]%orb_false_elim [Hk' Hf]%andb_prop.
  apply negb_true_iff in Hk'.
  rewrite map_app in *. rewrite existsb_app, Hk'. cbn.
  rewrite String.eqb_sym, Hkk. cbn. now apply IH.
Qed.

Lemma dict_of_pairs_distinct_from (d acc : dict) :
  distinct (map fst d) = true ->
  forallb (fun k => negb (existsb (String.eqb k) (map fst acc))) (map fst d) = true ->
  fold_left (fun a kv => dict_set (fst kv) (snd kv) a) d acc = acc ++ d.
Proof.
  revert acc. induction d as [|[k v] d IH]; intros acc Hd Hf; cbn.
  - now rewrite app_nil_r.
  - cbn in Hd, Hf. apply andb_prop in Hd as [Hk Hd]. apply andb_prop in Hf as [Hka Hf].
    apply negb_true_iff in Hk, Hka.
    rewrite dict_set_fresh by assumption.
    rewrite IH; [now rewrite <- app_assoc | assumption |].
    now apply fresh_after_append.
Qed.

Lemma dict_of_pairs_distinct (d : dict) :
  distinct (map fst d) = true -> dict_of_pairs d = d.
Proof.
  intros H. unfold dict_of_pairs. rewrite dict_of_pairs_distinct_from; [reflexivity | exact H |].
  clear H. induction (map fst d); cbn; auto.
Qed.

Lemma join_opens (y : value) (l : list value) :
  opens_value (Text.join ", " (map dumps (y :: l))).
Proof.
  destruct l; cbn [map Text.join]; [| apply opens_value_append]; apply dumps_head.
Qed.

Lemma scan_elements_dumps (l : list value) :
  List.Forall reads_back l -> l <> [] ->
  forall fuel rest,
    forallb well_formed l = true -> (elements_size l <= fuel)%nat ->
    scan_elements fuel (Text.join ", " (map dumps l) +:+ String "]" rest) = Some (l, rest).
Proof.
  induction 1 as [|x l Hx Hl IH]; [congruence |]. intros _ fuel rest Hwf Hfuel.
  cbn in Hwf. apply andb_prop in Hwf as [Hwx Hwl].
  cbn [elements_size fold_right] in Hfuel. fold (elements_size l) in Hfuel.
  destruct fuel as [|fuel]; [lia |]. cbn [scan_elements].
  destruct l as [|y l].
  - cbn [map Text.join]. rewrite Hx by (auto; lia). cbn. reflexivity.
  - cbn [map]. rewrite join_cons2, !append_assoc.
    rewrite Hx by (auto; lia).
    change (dumps y :: map dumps l) with (map dumps (y :: l)).
    assert (opens_value (Text.join ", " (map dumps (y :: l)) +:+ String "]" rest)) as Ho
      by apply opens_value_append, join_opens.
    specialize (IH ltac:(congruence) fuel rest Hwl ltac:(lia)).
    remember (Text.join ", " (map dumps (y :: l)) +:+ String "]" rest) as tail eqn:E.
    change (", " +:+ tail) with (String "," (String " " tail)).
    cbn. rewrite (skip_ws_opens _ Ho). now rewrite IH.
Qed.

Lemma scan_members_dumps (d : dict) :
  List.Forall (fun kv => reads_back (snd kv)) d -> d <> [] ->
  forall fuel rest,
    forallb (fun kv => well_formed (snd kv)) d = true -> (members_size d <= fuel)%nat ->
    scan_members fuel (Text.join ", " (map member d) +:+ String "}" rest) = Some (d, rest).
Proof.
  induction 1 as [|[k v] d Hv Hd IH]; [congruence |]. intros _ fuel rest Hwf Hfuel.
  cbn in Hwf. apply andb_prop in Hwf as [Hwv Hwd]. cbn [snd] in Hv.
  cbn [members_size fold_right snd] in Hfuel. fold (members_size d) in Hfuel.
  destruct fuel as [|fuel]; [lia |].
  assert (forall tail,
            after_value tail = true ->
            exists t, member (k, v) +:+ tail = String Text.dquote t
                      /\ scan_string t = Some (k, String ":" (String " " (dumps v +:+ tail))))
    as Hmember.
  { intros tail _. unfold member. cbn [fst snd].
    destruct (JsonFacts.scan_quote k (": " +:+ dumps v +:+ tail)) as (t & E & Ht).
    exists t. rewrite !append_assoc. split; [exact E | exact Ht]. }
  assert (forall tail, skip_ws (dumps v +:+ tail) = dumps v +:+ tail) as Hskip
    by (intros tail; apply skip_ws_opens, opens_value_append, dumps_head).
  destruct d as [|kv' d].
  - cbn [map Text.join].
    destruct (Hmember (String "}" rest) eq_refl) as (t & -> & Ht).
    cbn [scan_members]. change (Ascii.eqb Text.dquote Text.dquote) with true. cbn iota.
    rewrite Ht. cbn [skip_ws is_ws]. cbn. rewrite Hskip.
    rewrite Hv by (auto; lia). cbn. reflexivity.
  - cbn [map]. rewrite join_cons2, !append_assoc.
    change (member kv' :: map member d) with (map member (kv' :: d)).
    specialize (IH ltac:(congruence) fuel rest Hwd ltac:(lia)).
    assert (opens_value (Text.join ", " (map member (kv' :: d)) +:+ String "}" rest)) as Ho.
    { apply opens_value_append. destruct d; cbn [map Text.join]; unfold member;
        repeat apply opens_value_append; do 2 eexists; (split; [reflexivity | easy]). }
    remember (Text.join ", " (map member (kv' :: d)) +:+ String "}" rest) as tail eqn:E.
    change (", " +:+ tail) with (String "," (String " " tail)).
    destruct (Hmember (String "," (String " " tail)) eq_refl) as (t & -> & Ht).
    cbn [scan_members]. change (Ascii.eqb Text.dquote Text.dquote) with true. cbn iota.
    rewrite Ht. cbn [skip_ws is_ws]. cbn. rewrite Hskip.
    rewrite Hv by (auto; lia). cbn. rewrite (skip_ws_opens _ Ho). now rewrite IH.
Qed.

Theorem scan_once_dumps (o : value) : reads_back o.
Proof.
  induction o as [|b|n|s|l IH|d IH] using value_induction;
    intros fuel rest Hwf Hfuel Hrest; (destruct fuel as [|fuel]; [cbn in Hfuel; lia |]).
  - reflexivity.
  - destruct b; reflexivity.
  - now apply NumberFacts.scan_once_number.
  - cbn [dumps]. destruct (JsonFacts.scan_quote s rest) as (t & -> & Ht).
    cbn [scan_once]. change (Ascii.eqb Text.dquote Text.dquote) with true. cbn iota. now rewrite Ht.
  - cbn [dumps]. rewrite !append_assoc.
    change ("[" +:+ ?x) with (String "[" x). cbn [scan_once].
    change (Ascii.eqb "[" Text.dquote) with false. change (Ascii.eqb "[" "{") with false.
    change (Ascii.eqb "[" "[") with true. cbn iota.
    change ("]" +:+ rest) with (String "]" rest).
    destruct l as [|x l]; [reflexivity |].
    pose proof (join_opens x l) as Ho.
    apply (opens_value_append _ (String "]" rest)) in Ho.
    rewrite (skip_ws_opens _ Ho).
    pose proof (scan_elements_dumps (x :: l) IH ltac:(congruence) fuel rest Hwf) as Hs.
    cbn [size] in Hfuel. specialize (Hs ltac:(unfold elements_size; lia)).
    destruct Ho as (c & t & E & _ & Hc & _). rewrite E in *. now rewrite Hc, Hs.
  - cbn [dumps]. rewrite !append_assoc.
    change ("{" +:+ ?x) with (String "{" x). cbn [scan_once].
    change (Ascii.eqb "{" Text.dquote) with false. change (Ascii.eqb "{" "{") with true. cbn iota.
    change ("}" +:+ rest) with (String "}" rest).
    destruct d as [|kv d]; [reflexivity |].
    cbn [well_formed] in Hwf. apply andb_prop in Hwf as [Hkeys Hwf].
    assert (opens_value (Text.join ", " (map member (kv :: d)) +:+ String "}" rest)) as Ho.
    { apply opens_value_append. destruct d; cbn [map Text.join]; unfold member;
        repeat apply opens_value_append; do 2 eexists; (split; [reflexivity | easy]). }
    change (map (fun kv => quote (fst kv) +:+ ": " +:+ dumps (snd kv)) (kv :: d))
      with (map member (kv :: d)).
    rewrite (skip_ws_opens _ Ho).
    pose proof (scan_members_dumps (kv :: d) IH ltac:(congruence) fuel rest Hwf) as Hs.
    cbn [size] in Hfuel. specialize (Hs ltac:(unfold members_size; lia)).
    destruct Ho as (c & t & E & _ & _ & Hc). rewrite E in *. rewrite Hc, Hs.
    now rewrite dict_of_pairs_distinct.
Qed.

End DumpsLoads.

Module LoadsFacts.
Import Py Json Measure DumpsLoads.

Lemma length_join_elements (l : list value) :
  List.Forall (fun o => (size o <= String.length (dumps o))%nat) l ->
  (elements_size l <= S (String.length (Text.join ", " (map dumps l))))%nat.
Proof.
  induction 1 as [|x l Hx _ IH]; [cbn; lia |].
  destruct l as [|y l].
  - cbn [map Text.join elements_size fold_right]. lia.
  - cbn [map]. rewrite join_cons2, !length_append.
    cbn [elements_size fold_right] in *. cbn [map] in IH. cbn [String.length]. lia.
Qed.

Lemma length_join_members (d : dict) :
  List.Forall (fun kv => (size (snd kv) <= String.length (dumps (snd kv)))%nat) d ->
  (members_size d <= S (String.length (Text.join ", " (map member d))))%nat.
Proof.
  induction 1 as [|[k v] d Hv _ IH]; [cbn; lia |]. cbn [snd] in Hv.
  destruct d as [|kv' d].
  - cbn [map Text.join members_size fold_right snd]. unfold member. cbn [fst snd].
    rewrite !length_append. lia.
  - cbn [map]. rewrite join_cons2, !length_append.
    cbn [members_size fold_right snd] in *. cbn [map] in IH. unfold member at 1.
    cbn [fst snd]. rewrite !length_append. cbn [String.length]. lia.
Qed.

Lemma size_le_length (o : value) : (size o <= String.length (dumps o))%nat.
Proof.
  induction o as [|b|n|s|l IH|d IH] using value_induction.
  - cbn. lia.
  - destruct b; cbn; lia.
  - destruct (dumps_head (VInt n)) as (c & t & -> & _). cbn. lia.
  - cbn. lia.
  - cbn [dumps size]. rewrite !length_append. cbn [String.length].
    pose proof (length_join_elements l IH). unfold elements_size in *. lia.
  - cbn [dumps size]. rewrite !length_append. cbn [String.length].
    pose proof (length_join_members d IH). unfold members_size in *.
    change (map (fun kv => quote (fst kv) +:+ ": " +:+ dumps (snd kv)) d)
      with (map member d). lia.
Qed.

(** [json.loads(json.dumps(o)) == o], and with the same order of keys. *)
Theorem loads_dumps (o : value) : well_formed o = true -> loads (dumps o) = Some o.
Proof.
  intros Hwf. unfold loads.
  rewrite (skip_ws_opens _ (dumps_head o)).
  pose proof (scan_once_dumps o (S (String.length (dumps o))) "" Hwf) as H.
  rewrite append_nil_r in H.
  rewrite H; [reflexivity | pose proof (size_le_length o); lia | reflexivity].
Qed.

End LoadsFacts.

Module ParserFacts.
Import Py Json Measure.

Ltac break_hyp H :=
  repeat match type of H with
         | context [match ?x with _ => _ end] => destruct x eqn:?; try discriminate H
         | context [if ?x then _ else _] => destruct x eqn:?; try discriminate H
         end.

Lemma scan_atom_well_formed (s : string) (o : value) (r : string) :
  scan_atom s = Some (o, r) -> well_formed o = true.
Proof.
  unfold scan_atom, scan_number. intros H. break_hyp H;
    injection H as <- <-; try reflexivity;
    match goal with
    | E : _ = Some (_, _) |- _ => break_hyp E; now injection E as <- <-
    end.
Qed.

Lemma dict_set_keys (k : string) (v : value) (d : dict) (k0 : string) :
  existsb (String.eqb k0) (map fst (dict_set k v d))
  = existsb (String.eqb k0) (map fst d) || String.eqb k0 k.
Proof.
  induction d as [|[k' v'] d IH]; cbn; [now rewrite orb_false_r |].
  destruct (String.eqb_spec k k') as [<- | Hne]; cbn.
  - destruct (String.eqb k0 k); cbn; [reflexivity | now rewrite orb_false_r].
  - rewrite IH. now rewrite orb_assoc.
Qed.

Lemma dict_set_distinct (k : string) (v : value) (d : dict) :
  distinct (map fst d) = true -> distinct (map fst (dict_set k v d)) = true.
Proof.
  induction d as [|[k' v'] d IH]; cbn; [reflexivity |].
  intros [Hk Hd]%andb_prop. apply negb_true_iff in Hk.
  destruct (String.eqb_spec k k') as [<- | Hne]; cbn.
  - now rewrite Hk, Hd.
  - rewrite dict_set_keys, Hk, (IH Hd). cbn.
    destruct (String.eqb_spec k' k); [congruence | reflexivity].
Qed.

Lemma dict_set_values (k : string) (v : value) (d : dict) :
  well_formed v = true -> forallb (fun kv => well_formed (snd kv)) d = true ->
  forallb (fun kv => well_formed (snd kv)) (dict_set k v d) = true.
Proof.
  intros Hv. induction d as [|[k' v'] d IH]; cbn; [now rewrite Hv |].
  intros [Hv' Hd]%andb_prop.
  destruct (String.eqb k k'); cbn; [now rewrite Hv, Hd | now rewrite Hv', IH].
Qed.

Lemma dict_of_pairs_well_formed (pairs : list (string * value)) :
  forallb (fun kv => well_formed (snd kv)) pairs = true ->
  well_formed (VDict (dict_of_pairs pairs)) = true.
Proof.
  unfold dict_of_pairs.
  assert (forall acc,
             well_formed (VDict acc) = true ->
             forallb (fun kv => well_formed (snd kv)) pairs = true ->
             well_formed
               (VDict (fold_left (fun d kv => dict_set (fst kv) (snd kv) d) pairs acc)) = true)
    as H.
  { induction pairs as [|[k v] pairs IH]; intros acc Hacc Hp; cbn; [exact Hacc |].
    cbn in Hp. apply andb_prop in Hp as [Hv Hp].
    cbn [well_formed] in Hacc. apply andb_prop in Hacc as [Hk Hvals].
    apply IH; [| exact Hp]. cbn [well_formed].
    now rewrite dict_set_distinct, dict_set_values. }
  now apply H.
Qed.

(** What the scanner returns is a Python object: its dicts hold every
    key once. *)
Lemma scan_well_formed (fuel : nat) :
  (forall s o r, scan_once fuel s = Some (o, r) -> well_formed o = true)
  /\ (forall s l r, scan_elements fuel s = Some (l, r) -> forallb well_formed l = true)
  /\ (forall s p r, scan_members fuel s = Some (p, r) ->
                    forallb (fun kv => well_formed (snd kv)) p = true).
Proof.
  induction fuel as [|fuel (IHo & IHe & IHm)]; [repeat split; discriminate |].
  repeat split.
  - intros s o r H. cbn [scan_once] in H.
    destruct s as [|c s]; [discriminate |].
    destruct (Ascii.eqb c Text.dquote); [break_hyp H; now injection H as <- <- |].
    destruct (Ascii.eqb c "{").
    { break_hyp H; injection H as <- <-; [reflexivity |].
      eapply dict_of_pairs_well_formed, IHm; eassumption. }
    destruct (Ascii.eqb c "[").
    { break_hyp H; injection H as <- <-; [reflexivity |].
      cbn [well_formed]. eapply IHe; eassumption. }
    eapply scan_atom_well_formed; eassumption.
  - intros s l r H. cbn [scan_elements] in H. break_hyp H; injection H as <- <-; cbn.
    + erewrite IHo by eassumption. reflexivity.
    + erewrite IHo by eassumption. erewrite IHe by eassumption. reflexivity.
  - intros s p r H. cbn [scan_members] in H. break_hyp H; injection H as <- <-; cbn.
    + erewrite IHo by eassumption. reflexivity.
    + erewrite IHo by eassumption. erewrite IHm by eassumption. reflexivity.
Qed.

Theorem loads_well_formed (s : string) (o : value) :
  loads s = Some o -> well_formed o = true.
Proof.
  unfold loads. intros H. break_hyp H. injection H as <-.
  eapply (proj1 (scan_well_formed _)); eassumption.
Qed.

End ParserFacts.


(** * Properties of the handlers *)

Ltac run_monad :=
  unfold raise_for_status, response_json, try_except, get_value_redis,
    add_key_value_redis, delete_key_redis, time_time in *;
  unfold mbind, mret, M_bind, M_ret, outcome_bind, outcome_ret, lift, raise, or_raise,
    Redis.get_value_redis in *.

Ltac tidy :=
  cbn [fmap option_fmap option_map Redis.payload default from_option Datatypes.id negb
       fst snd cache clock traffic] in *.

Ltac break_goal :=
  match goal with
  | |- context [match ?x with _ => _ end] => destruct x eqn:?
  | |- context [if ?x then _ else _] => destruct x eqn:?
  end.

(** [step H] splits on the first thing the run in [H] depends on. *)
Ltac drill t :=
  lazymatch t with
  | match ?x with _ => _ end => drill x
  | (match ?x with _ => _ end) _ => drill x
  | _ => t
  end.

Ltac step H :=
  lazymatch type of H with
  | ?lhs = _ =>
      let s := drill lhs in
      lazymatch s with
      | lhs => fail "no match left"
      | _ => destruct s eqn:?
      end
  end.

Lemma no_growth {A : Type} (l : list A) (x : A) : l = l ++ [x] -> False.
Proof. intros H. apply (f_equal (@length A)) in H. rewrite length_app in H. cbn in H. lia. Qed.

Module PyFacts.
Import Py.

Lemma dict_get_set (k : string) (v : value) (d : dict) :
  dict_get k (dict_set k v d) = Some v.
Proof.
  induction d as [|[k' v'] d IH]; cbn [dict_set dict_get].
  - now rewrite String.eqb_refl.
  - destruct (String.eqb k k') eqn:E; cbn [dict_get]; rewrite ?String.eqb_refl, ?E; auto.
Qed.

End PyFacts.

Module AccessorFacts.
Import Py Hubspot Reading.

Lemma present_loads (text : string) (o : value) :
  Json.loads text = Some o -> present (Some text) = true.
Proof. destruct text; [discriminate | reflexivity]. Qed.

Lemma accessor_guard_off (net : Http.network) (user_id org_id : string) (w : world)
    (text : string) (ttl : Z) (credentials : dict) :
  cache w !! credentials_key org_id user_id = Some {| Redis.payload := text; Redis.ttl := ttl |} ->
  Json.loads text = Some (VDict credentials) ->
  guard credentials = false ->
  get_hubspot_credentials net user_id org_id w = (Returned (VDict credentials), w).
Proof.
  intros Hc Hl Hg. unfold get_hubspot_credentials. run_monad. rewrite Hc. tidy.
  rewrite (present_loads _ _ Hl). tidy. rewrite Hl. cbn [get].
  unfold guard in Hg.
  destruct (truthy (default VNone (dict_get "expires_in" credentials))) eqn:He.
  - cbn in Hg. now rewrite Hg.
  - now rewrite He.
Qed.

(** With the guard on, the accessor compares the clock with
    [created_at + expires_in]. *)
Lemma accessor_guard_on (net : Http.network) (user_id org_id : string) (w : world)
    (text : string) (ttl : Z) (credentials : dict) (c e : Z) :
  cache w !! credentials_key org_id user_id = Some {| Redis.payload := text; Redis.ttl := ttl |} ->
  Json.loads text = Some (VDict credentials) ->
  dict_get "created_at" credentials = Some (VInt c) ->
  dict_get "expires_in" credentials = Some (VInt e) ->
  guard credentials = true ->
  get_hubspot_credentials net user_id org_id w
  = if c + e <=? clock w then
      try_except
        (refresh_token ← lift (getitem (VDict credentials) "refresh_token");
         response ← send net (refresh_request refresh_token);
         raise_for_status response;;
         new_tokens ← response_json response;
         now ← time_time;
         new_tokens ← lift (setitem new_tokens "created_at" (VInt now));
         add_key_value_redis (credentials_key org_id user_id) (Json.dumps new_tokens) 3600;;
         mret new_tokens)
        (fun e =>
           match e with
           | HTTPError => raise (HTTPException 400 TokenRefreshFailed)
           | _ => raise e
           end) w
    else (Returned (VDict credentials), w).
Proof.
  intros Hc Hl Hca Hex Hg. unfold get_hubspot_credentials at 1.
  unfold guard in Hg. rewrite Hca, Hex in Hg. tidy. apply andb_prop in Hg as [He Hcr].
  run_monad. rewrite Hc. tidy.
  rewrite (present_loads _ _ Hl). tidy. rewrite Hl. cbn [get getitem]. rewrite Hex, Hca. tidy.
  rewrite He, Hcr. run_monad. cbn [add int_ge].
  destruct (c + e <=? clock w); reflexivity.
Qed.

End AccessorFacts.


Module AccessorTheorems.
Import Py Hubspot Reading AccessorFacts.

(** Every run of the accessor is one of three: nothing happens to the
    world; one HTTP call is made and nothing is written; one HTTP call
    is made, it succeeds, and the credentials are written. *)
Lemma accessor_runs (net : Http.network) (user_id org_id : string) (w w' : world)
    (out : outcome value) :
  get_hubspot_credentials net user_id org_id w = (out, w') ->
  w' = w
  \/ (exists req, w' = after_call net req w
                  /\ (Http.failed (Http.result (net (length (traffic w)) req)) = true ->
                      out = Raised (HTTPException 400 TokenRefreshFailed)))
  \/ (exists req status body new_tokens,
         Http.result (net (length (traffic w)) req) = Http.Response status body
         /\ Http.is_success status = true
         /\ out = Returned new_tokens
         /\ w' = with_cache
                   (<[credentials_key org_id user_id :=
                        {| Redis.payload := Json.dumps new_tokens; Redis.ttl := 3600 |}]>
                      (cache w))
                   (after_call net req w)).
Proof.
  unfold get_hubspot_credentials. run_monad. unfold send. intros H.
  repeat (step H; tidy; try (injection H as <- <-; now left)).
  all: injection H as <- <-.
  all: match goal with
       | E : Http.result (_ _ ?r) = Http.Response ?st ?body,
         S : Http.is_success ?st = true,
         T : setitem _ _ _ = Returned ?toks |- _ =>
           right; right; exists r, st, body, toks;
           unfold with_cache, after_call; rewrite E; tidy; now repeat split
       | E : Http.result (_ _ ?r) = _ |- _ =>
           right; left; exists r; split;
           [unfold after_call; now rewrite E
           | unfold Http.failed; rewrite E; tidy;
             repeat match goal with S : Http.is_success _ = _ |- _ => rewrite S end;
             first [reflexivity | discriminate]]
       end.
Qed.

Lemma guard_absent (credentials : dict) :
  dict_get "created_at" credentials = None \/ dict_get "expires_in" credentials = None ->
  guard credentials = false.
Proof.
  unfold guard. intros [-> | ->]; cbn; [apply andb_false_r | reflexivity].
Qed.

Lemma guard_nonzero (credentials : dict) (c e : Z) :
  dict_get "created_at" credentials = Some (VInt c) ->
  dict_get "expires_in" credentials = Some (VInt e) ->
  c <> 0 -> e <> 0 -> guard credentials = true.
Proof.
  unfold guard. intros -> -> Hc He. cbn.
  destruct (Z.eqb_spec e 0); [contradiction |]. destruct (Z.eqb_spec c 0); [contradiction |].
  reflexivity.
Qed.

(** C3.  A stored credential record with [created_at] and [expires_in]
    that is read before [created_at + expires_in] comes back exactly as it
    is stored, and the world is the same afterwards: no HTTP call is
    logged and the cache is not written. *)
Theorem fresh_credentials_returned_as_stored
    (net : Http.network) (user_id org_id : string) (w : world)
    (text : string) (ttl : Z) (credentials : dict) (c e : Z) :
  cache w !! credentials_key org_id user_id
    = Some {| Redis.payload := text; Redis.ttl := ttl |} ->
  Json.loads text = Some (VDict credentials) ->
  dict_get "created_at" credentials = Some (VInt c) ->
  dict_get "expires_in" credentials = Some (VInt e) ->
  clock w < c + e ->
  get_hubspot_credentials net user_id org_id w = (Returned (VDict credentials), w).
Proof.
  intros Hc Hl Hca Hex Hnow.
  destruct (guard credentials) eqn:Hg.
  - rewrite (accessor_guard_on net user_id org_id w text ttl credentials c e) by assumption.
    destruct (Z.leb_spec (c + e) (clock w)); [lia | reflexivity].
  - now apply (accessor_guard_off net user_id org_id w text ttl credentials).
Qed.

(** The amended C2.  A stored record whose [created_at] and [expires_in]
    are integers other than zero and that holds a [refresh_token], read at
    or after [created_at + expires_in]: the accessor makes exactly one HTTP
    call, the refresh request; and when the answer is a 2xx response whose
    body is a JSON object, the accessor returns that object with
    [created_at] set to the clock after the call, which is not before the
    time of the read, and stores its serialization under the credentials
    key with a TTL of 3600 seconds. *)
Theorem expired_credentials_refreshed_once
    (net : Http.network) (user_id org_id : string) (w : world)
    (text : string) (ttl : Z) (credentials : dict) (c e : Z) (refresh_token : value) :
  cache w !! credentials_key org_id user_id
    = Some {| Redis.payload := text; Redis.ttl := ttl |} ->
  Json.loads text = Some (VDict credentials) ->
  dict_get "created_at" credentials = Some (VInt c) ->
  dict_get "expires_in" credentials = Some (VInt e) ->
  c <> 0 -> e <> 0 ->
  dict_get "refresh_token" credentials = Some refresh_token ->
  c + e <= clock w ->
  let answer := net (length (traffic w)) (refresh_request refresh_token) in
  let now := clock w + Z.of_N (Http.elapsed answer) in
  let run := get_hubspot_credentials net user_id org_id w in
  traffic (snd run) = traffic w ++ [(refresh_request refresh_token, Http.result answer)]
  /\ forall status body new_tokens,
      Http.result answer = Http.Response status body ->
      Http.is_success status = true ->
      Json.loads body = Some (VDict new_tokens) ->
      let record := dict_set "created_at" (VInt now) new_tokens in
      run = (Returned (VDict record),
             {| cache := <[credentials_key org_id user_id :=
                             {| Redis.payload := Json.dumps (VDict record);
                                Redis.ttl := 3600 |}]>
                           (cache w);
                clock := now;
                traffic := traffic w
                           ++ [(refresh_request refresh_token, Http.Response status body)] |})
      /\ dict_get "created_at" record = Some (VInt now)
      /\ clock w <= now.
Proof.
  intros Hc Hl Hca Hex Hc0 He0 Hrt Hnow answer now run.
  pose proof (guard_nonzero credentials c e Hca Hex Hc0 He0) as Hg.
  subst run.
  rewrite (accessor_guard_on net user_id org_id w text ttl credentials c e) by assumption.
  destruct (Z.leb_spec (c + e) (clock w)); [| lia].
  cbn [getitem]. rewrite Hrt. run_monad. unfold send. fold answer. split.
  - destruct (Http.result answer) as [|status body]; tidy; [reflexivity |].
    destruct (Http.is_success status); tidy; [| reflexivity].
    destruct (Json.loads body) as [[]|]; reflexivity.
  - intros status body new_tokens Hr Hok Hbody. rewrite Hr. tidy.
    rewrite Hok, Hbody. repeat split.
    + apply PyFacts.dict_get_set.
    + subst now. lia.
Qed.

(** C10.  When the HTTP call the accessor makes fails (no response, or
    a response that is not 2xx), the accessor raises the 400 error of a
    failed refresh and the cache is what it was; and the cache changes
    only in a run whose call was answered with a 2xx response. *)
Theorem failed_refresh_keeps_cache
    (net : Http.network) (user_id org_id : string) (w w' : world)
    (out : outcome value) :
  get_hubspot_credentials net user_id org_id w = (out, w') ->
  (forall req rep,
      traffic w' = traffic w ++ [(req, rep)] -> Http.failed rep = true ->
      out = Raised (HTTPException 400 TokenRefreshFailed) /\ cache w' = cache w)
  /\ (cache w' <> cache w ->
      exists req status body,
        traffic w' = traffic w ++ [(req, Http.Response status body)]
        /\ Http.is_success status = true).
Proof.
  intros H. apply accessor_runs in H.
  destruct H as [-> | [(req & -> & Hfail) | (req & status & body & toks & Hr & Hok & -> & ->)]].
  - split; [intros req rep Ht; now apply no_growth in Ht | congruence].
  - split; [| cbn; congruence].
    intros req' rep Ht Hrep. cbn in Ht. apply app_inj_tail in Ht as [_ [= <- <-]].
    split; [now apply Hfail | reflexivity].
  - split.
    + intros req' rep Ht Hrep. cbn in Ht. apply app_inj_tail in Ht as [_ [= <- <-]].
      rewrite Hr in Hrep. cbn in Hrep. now rewrite Hok in Hrep.
    + intros _. exists req, status, body. cbn. now rewrite Hr.
Qed.

End AccessorTheorems.


Module CallbackFacts.
Import Py Hubspot Reading.

Lemma keys_differ (org_id user_id : string) :
  state_key org_id user_id <> credentials_key org_id user_id.
Proof. discriminate. Qed.

(** A run of the callback that makes an HTTP call has accepted the state
    first, and the call it makes is the token exchange; a run that makes
    none leaves the world as it was and raises. *)
Lemma callback_runs (net : Http.network) (request : Request) (w w' : world)
    (out : outcome string) :
  oauth2callback_hubspot net request w = (out, w') ->
  (w' = w /\ exists e, out = Raised e)
  \/ exists state_data user_id org_id,
      state_accepted request w state_data user_id org_id
      /\ traffic w'
         = traffic w
           ++ [(exchange_request (default "" (query_get "code" (query_params request))),
                Http.result
                  (net (length (traffic w))
                     (exchange_request
                        (default "" (query_get "code" (query_params request))))))].
Proof.
  unfold oauth2callback_hubspot. run_monad. unfold send. intros H.
  repeat (step H; tidy; try (injection H as <- <-; left; split; [reflexivity | eauto]; fail)).
  all: injection H as <- <-; right.
  all: match goal with
       | D : decode_state _ = Returned ?sd,
         U : get ?sd "user_id" _ = Some ?u,
         O : get ?sd "org_id" _ = Some ?o |- _ => exists sd, u, o
       end.
  all: (split; [| cbn [traffic];
                  repeat match goal with E : Http.result _ = _ |- _ => rewrite E end;
                  reflexivity]).
  all: unfold state_accepted; repeat split; try assumption.
  all: destruct (cache w !! state_key _ _) as [entry|] eqn:Hentry; [| discriminate].
  all: tidy; exists entry; do 3 eexists; repeat split; try eassumption.
  all: now apply negb_false_iff.
Qed.

Lemma callback_success (net : Http.network) (request : Request) (w w' : world)
    (page : string) :
  oauth2callback_hubspot net request w = (Returned page, w') ->
  exists user_id org_id status body tokens,
    Http.is_success status = true
    /\ Json.loads body = Some tokens
    /\ page = close_window_page
    /\ cache w' = delete (state_key org_id user_id)
                    (<[credentials_key org_id user_id :=
                         {| Redis.payload := Json.dumps tokens; Redis.ttl := 3600 |}]>
                       (cache w))
    /\ traffic w'
       = traffic w
         ++ [(exchange_request (default "" (query_get "code" (query_params request))),
              Http.Response status body)].
Proof.
  unfold oauth2callback_hubspot. run_monad. unfold send. intros H.
  repeat (step H; tidy; try discriminate H).
  injection H as <- <-.
  match goal with
  | U : get _ "user_id" _ = Some ?u, O : get _ "org_id" _ = Some ?o,
    S : Http.is_success ?st = true, L : Json.loads ?body = Some ?toks |- _ =>
      exists (str u), (str o), st, body, toks
  end.
  now repeat split.
Qed.

End CallbackFacts.


Module CallbackTheorems.
Import Py Hubspot Reading CallbackFacts.

(** The amended C1.  The callback asks for tokens only after it has
    found, under the state key named by the decoded state, a cached blob
    whose [state] nonce equals the nonce of the decoded state; and a
    request whose decoded state has a different nonce, or no cached blob,
    is answered with a 400 error, the world left as it was: no token
    exchange is made. *)
Theorem callback_checks_state_nonce
    (net : Http.network) (request : Request) (w w' : world) (out : outcome string) :
  oauth2callback_hubspot net request w = (out, w') ->
  (traffic w' <> traffic w ->
   exists state_data user_id org_id, state_accepted request w state_data user_id org_id)
  /\ (forall state_data user_id org_id,
         decode_state (default "" (query_get "state" (query_params request)))
           = Returned state_data ->
         get state_data "user_id" VNone = Some user_id ->
         get state_data "org_id" VNone = Some org_id ->
         state_rejected w state_data user_id org_id ->
         (exists d, out = Raised (HTTPException 400 d)) /\ w' = w).
Proof.
  intros H. split.
  - intros Hcall. apply callback_runs in H as [[-> _] | (sd & u & o & Hacc & _)];
      [contradiction | eauto].
  - intros sd u o Hd Hu Ho Hrej. revert H.
    unfold oauth2callback_hubspot. run_monad.
    destruct (present (query_get "error" (query_params request)));
      [intros [= <- <-]; eauto |].
    destruct (negb (present (query_get "code" (query_params request)))
              || negb (present (query_get "state" (query_params request))));
      [intros [= <- <-]; eauto |].
    rewrite Hd, Hu, Ho. unfold state_rejected in Hrej.
    destruct (cache w !! state_key (str o) (str u)) as [entry|]; tidy;
      [| intros [= <- <-]; eauto].
    destruct Hrej as [-> | (saved & nonce & nonce' & Hl & Hn & Hn' & Hne)];
      [intros [= <- <-]; eauto |].
    rewrite (AccessorFacts.present_loads _ _ Hl). tidy. rewrite Hn, Hl, Hn', Hne. tidy.
    intros [= <- <-]; eauto.
Qed.

(** C1 as it is written fails: the cached blob and the decoded state
    differ in many bytes (the order of keys, and a key the authorizer never
    wrote), and yet the
    callback goes on to the token exchange, because the nonces agree. *)
Lemma callback_accepts_state_with_other_bytes :
  let cached := Json.dumps (state_data "N0nce" "u1" "o1") in
  let sent :=
    Json.dumps (VDict [("org_id", VStr "o1"); ("user_id", VStr "u1");
                       ("state", VStr "N0nce"); ("padding", VStr "xyz")]) in
  let w := {| cache := {[state_key "o1" "u1" :=
                           {| Redis.payload := cached; Redis.ttl := 600 |}]};
              clock := 0; traffic := [] |} in
  let encoded_state := string_of_list_ascii (Base64.urlsafe_b64encode (Utf8.encode sent)) in
  let request := {| query_params := [("code", "c0de"); ("state", encoded_state)] |} in
  let net : Http.network := fun _ _ =>
    {| Http.result := Http.Response 200 "{}"; Http.elapsed := 0 |} in
  let run := oauth2callback_hubspot net request w in
  cache w !! state_key "o1" "u1" = Some {| Redis.payload := cached; Redis.ttl := 600 |}
  /\ (Base64.urlsafe_b64decode encoded_state ≫= Utf8.decode) = Some sent
  /\ sent <> cached
  /\ fst run = Returned close_window_page
  /\ traffic (snd run) = [(exchange_request "c0de", Http.Response 200 "{}")].
Proof. repeat split; first [vm_compute; reflexivity | vm_compute; discriminate]. Qed.

End CallbackTheorems.


Module StoredTokens.
Import Py Hubspot Reading CallbackFacts AccessorFacts.

(** C5.  A stored record with no [created_at] or no [expires_in] comes
    back from the accessor as it is stored, whatever the clock says, and
    nothing is done to the world.  The callback stores the serialization
    of the provider's token response itself, under the credentials key
    with TTL 3600; so when that response is a JSON object without
    [created_at], every later read of it by the accessor returns it
    unchanged, at any time and without an HTTP call. *)
Theorem record_without_timestamps_is_never_refreshed :
  (forall (net : Http.network) (user_id org_id : string) (w : world)
          (text : string) (ttl : Z) (credentials : dict),
      cache w !! credentials_key org_id user_id
        = Some {| Redis.payload := text; Redis.ttl := ttl |} ->
      Json.loads text = Some (VDict credentials) ->
      dict_get "created_at" credentials = None \/ dict_get "expires_in" credentials = None ->
      get_hubspot_credentials net user_id org_id w = (Returned (VDict credentials), w))
  /\ (forall (net : Http.network) (request : Request) (w w' : world) (page : string),
         oauth2callback_hubspot net request w = (Returned page, w') ->
         exists user_id org_id req status body tokens,
           traffic w' = traffic w ++ [(req, Http.Response status body)]
           /\ Json.loads body = Some tokens
           /\ cache w' !! credentials_key org_id user_id
              = Some {| Redis.payload := Json.dumps tokens; Redis.ttl := 3600 |}
           /\ forall fields,
               tokens = VDict fields -> dict_get "created_at" fields = None ->
               forall (net' : Http.network) (now : Z) (log : list (Http.request * Http.reply)),
                 let later := {| cache := cache w'; clock := now; traffic := log |} in
                 get_hubspot_credentials net' user_id org_id later = (Returned tokens, later)).
Proof.
  split.
  - intros net user_id org_id w text ttl credentials Hc Hl Habs.
    eapply accessor_guard_off; eauto using AccessorTheorems.guard_absent.
  - intros net request w w' page H.
    apply callback_success in H
      as (user_id & org_id & status & body & tokens & Hok & Hl & -> & Hcache & Ht).
    exists user_id, org_id. do 2 eexists. exists body, tokens.
    assert (cache w' !! credentials_key org_id user_id
            = Some {| Redis.payload := Json.dumps tokens; Redis.ttl := 3600 |}) as Hstored.
    { rewrite Hcache, lookup_delete_ne by apply keys_differ. apply lookup_insert_eq. }
    repeat split; [exact Ht | exact Hl | exact Hstored |].
    intros fields -> Hnone net' now log later.
    eapply accessor_guard_off; [exact Hstored | | apply AccessorTheorems.guard_absent; auto].
    apply LoadsFacts.loads_dumps. eapply ParserFacts.loads_well_formed, Hl.
Qed.

End StoredTokens.


Module UrlFacts.
Import Url.

Lemma partition_absent (c : ascii) (s : string) :
  Text.contains_char c s = false -> partition c s = (s, None).
Proof.
  induction s as [|d s IH]; cbn [Text.contains_char partition]; [reflexivity |].
  rewrite Ascii.eqb_sym. intros [-> Hs]%orb_false_elim. now rewrite IH.
Qed.

Lemma partition_first (c : ascii) (a b : string) :
  Text.contains_char c a = false -> partition c (a +:+ String c b) = (a, Some b).
Proof.
  induction a as [|d a IH]; cbn [Text.contains_char].
  - intros _. change (partition c (String c b) = ("", Some b)).
    cbn [partition]. now rewrite Ascii.eqb_refl.
  - rewrite Ascii.eqb_sym. intros [Hd Ha]%orb_false_elim.
    rewrite append_cons. cbn [partition]. now rewrite Hd, IH.
Qed.

Lemma contains_char_append (c : ascii) (a b : string) :
  Text.contains_char c (a +:+ b) = Text.contains_char c a || Text.contains_char c b.
Proof.
  induction a as [|d a IH]; [reflexivity |].
  rewrite append_cons. cbn [Text.contains_char]. now rewrite IH, orb_assoc.
Qed.

Lemma split_absent (c : ascii) (s : string) :
  Text.contains_char c s = false -> split c s = [s].
Proof.
  induction s as [|d s IH]; cbn [Text.contains_char split]; [reflexivity |].
  rewrite Ascii.eqb_sym. intros [-> Hs]%orb_false_elim. now rewrite IH.
Qed.

Lemma split_nonempty (c : ascii) (s : string) : split c s <> [].
Proof.
  destruct s as [|d s]; cbn [split]; [discriminate |].
  destruct (Ascii.eqb d c); [discriminate |]. destruct (split c s); discriminate.
Qed.

Lemma split_at_separator (c : ascii) (a b : string) :
  split c (a +:+ String c b) = split c a ++ split c b.
Proof.
  induction a as [|d a IH].
  - change (split c (String c b) = [""] ++ split c b).
    cbn [split]. now rewrite Ascii.eqb_refl.
  - rewrite append_cons. cbn [split]. rewrite IH.
    destruct (Ascii.eqb d c); [reflexivity |].
    pose proof (split_nonempty c a). destruct (split c a); [contradiction | reflexivity].
Qed.


(** Text made of literal characters holds no ["&"] and no ["#"]. *)
Lemma literal_text (l : bytes) (c : ascii) :
  Forall (fun x => (Text.code x <? 128)%N = true /\ literal x = true) l ->
  literal c = false ->
  Text.contains_char c (string_of_list_ascii l) = false.
Proof.
  intros Hl Hc. induction Hl as [|x l [_ Hx] _ IH]; cbn; [reflexivity |].
  rewrite IH, orb_false_r.
  destruct (Ascii.eqb_spec c x); [congruence | reflexivity].
Qed.

End UrlFacts.

Module AuthorizeTheorems.
Import Py Hubspot Reading UrlFacts.

Lemma state_data_well_formed (nonce user_id org_id : string) :
  well_formed (state_data nonce user_id org_id) = true.
Proof. reflexivity. Qed.

(** C7.  [authorize_hubspot] returns a URL and stores a blob under
    [hubspot_state:{org_id}:{user_id}] with TTL 600.  The [state] query
    parameter of the URL consists of characters that stand for
    themselves in a URL; decoded as URL-safe Base64 and then as UTF-8 it
    is the stored blob; and the blob is the JSON text of a dict with the
    given [user_id] and [org_id]. *)
Theorem authorize_state_round_trip (nonce user_id org_id : string) (w : world) :
  exists url encoded_state blob w',
    authorize_hubspot nonce user_id org_id w = (Returned url, w')
    /\ query_get "state" (Url.parse_qsl (Url.query url)) = Some encoded_state
    /\ Forall (fun c => Url.literal c = true) (list_ascii_of_string encoded_state)
    /\ cache w' !! state_key org_id user_id
       = Some {| Redis.payload := blob; Redis.ttl := 600 |}
    /\ (Base64.urlsafe_b64decode encoded_state ≫= Utf8.decode) = Some blob
    /\ exists fields,
        Json.loads blob = Some (VDict fields)
        /\ dict_get "user_id" fields = Some (VStr user_id)
        /\ dict_get "org_id" fields = Some (VStr org_id).
Proof.
  set (blob := Json.dumps (state_data nonce user_id org_id)).
  set (raw := Base64.urlsafe_b64encode (Utf8.encode blob)).
  pose proof (Base64Facts.urlsafe_b64encode_plain (Utf8.encode blob)) as Hplain.
  fold raw in Hplain.
  assert (Forall (fun c => (Text.code c <? 128)%N = true) raw) as Hascii
    by (eapply Forall_impl; [exact Hplain | now intros ? []]).
  exists ("https://app.hubspot.com/oauth/authorize"
          +:+ String "?"
                ("client_id=&redirect_uri=&scope=crm.objects.contacts.read crm.objects.companies.read crm.objects.deals.read"
                 +:+ String "&" ("state=" +:+ string_of_list_ascii raw))),
    (string_of_list_ascii raw), blob.
  eexists. split; [| split; [| split; [| split; [| split]]]].
  - unfold authorize_hubspot. run_monad. fold blob raw.
    rewrite (Utf8Facts.decode_ascii raw Hascii). reflexivity.
  - unfold Url.query.
    rewrite (partition_absent "#").
    2:{ rewrite contains_char_append. cbn [Text.contains_char]. rewrite contains_char_append.
        cbn [Text.contains_char]. rewrite contains_char_append.
        rewrite (literal_text raw "#" Hplain eq_refl). reflexivity. }
    cbn [fst]. rewrite partition_first by reflexivity.
    unfold Url.parse_qsl. rewrite split_at_separator, flat_map_app.
    rewrite (split_absent "&" ("state=" +:+ string_of_list_ascii raw)).
    2:{ rewrite contains_char_append. now rewrite (literal_text raw "&" Hplain eq_refl). }
    cbn [flat_map]. change ("state=" +:+ ?s) with (String "s" (String "t" (String "a" (String "t" (String "e" (String "=" s)))))).
    cbn. reflexivity.
  - rewrite list_ascii_of_string_of_list_ascii.
    eapply Forall_impl; [exact Hplain | now intros ? []].
  - cbn [cache]. unfold Redis.add_key_value_redis. apply lookup_insert_eq.
  - unfold Base64.urlsafe_b64decode.
    rewrite (Utf8Facts.encode_ascii_of_ascii raw Hascii). subst raw.
    rewrite Base64Facts.urlsafe_there_and_back, Base64Facts.a2b_b2a_base64.
    cbn [mbind option_bind]. apply Utf8Facts.decode_encode.
  - eexists. split; [apply LoadsFacts.loads_dumps, state_data_well_formed |].
    split; reflexivity.
Qed.

End AuthorizeTheorems.


Module NormalizerTheorems.
Import Py Hubspot Reading.

Section WithDatetime.
Context {datetime : Type} (strptime : string -> string -> option datetime).

Ltac run_outcome :=
  unfold create_integration_item_metadata_object, display_name, prop;
  unfold mbind, mret, outcome_bind, outcome_ret, or_raise.

(** C9.  Whenever the normalizer returns an item for a provider record
    and an [item_type], the type of the item is [item_type] and its id is
    [str] of the record's [id], an underscore and the type: for a record
    whose [id] is the string [pid], the text [pid], ["_"] and the type.
    And it does return an item for every record whose [properties] are a
    dict or missing. *)
Theorem item_id_is_provider_id_and_type (record : value) (item_type : string) :
  (forall item,
      create_integration_item_metadata_object strptime record item_type = Returned item ->
      type item = item_type
      /\ exists fields,
          record = VDict fields
          /\ id item = str (default (VStr "") (dict_get "id" fields)) +:+ "_" +:+ item_type
          /\ forall pid, dict_get "id" fields = Some (VStr pid) ->
                         id item = pid +:+ "_" +:+ item_type)
  /\ (forall fields props,
         record = VDict fields ->
         default (VDict []) (dict_get "properties" fields) = VDict props ->
         exists item,
           create_integration_item_metadata_object strptime record item_type = Returned item).
Proof.
  split.
  - intros item H. destruct record as [| | | | |fields]; try discriminate H.
    assert (forall x : string,
               x = str (default (VStr "") (dict_get "id" fields)) +:+ "_" +:+ item_type ->
               forall pid, dict_get "id" fields = Some (VStr pid) ->
                           x = pid +:+ "_" +:+ item_type) as Hpid
      by (intros x -> pid ->; reflexivity).
    revert H. run_outcome. cbn [get]. intros H.
    repeat (step H; try discriminate H).
    all: injection H as <-; cbn [id type]; split; [reflexivity |].
    all: exists fields; repeat split; auto.
  - intros fields props -> Hp. run_outcome. cbn [get]. rewrite Hp. cbn [get].
    destruct (String.eqb item_type "contact"); [| destruct (String.eqb item_type "company");
      [| destruct (String.eqb item_type "deal")]];
      repeat match goal with
             | |- context [if ?b then _ else _] => destruct b
             end;
      eexists; reflexivity.
Qed.

(** C8.  A company record with a [name] and no [domain] property gets
    that name, and nothing else, as its display name. *)
Theorem company_without_domain_is_named_by_its_name
    (fields props : dict) (company_name : value) :
  dict_get "properties" fields = Some (VDict props) ->
  dict_get "domain" props = None ->
  dict_get "name" props = Some company_name ->
  exists item,
    create_integration_item_metadata_object strptime (VDict fields) "company" = Returned item /\ name item = company_name.
Proof.
  intros Hp Hd Hn. run_outcome. cbn [get String.eqb Ascii.eqb Bool.eqb].
  rewrite Hp. cbn [default from_option Datatypes.id get]. rewrite Hd, Hn.
  cbn [default from_option truthy]. eexists. split; reflexivity.
Qed.

Lemma not_own_prefix (e t : string) : t <> "" -> e +:+ t <> e.
Proof.
  intros Ht H. apply (f_equal String.length) in H. rewrite length_append in H.
  destruct t; [contradiction | cbn in H; lia].
Qed.

(** What the code does where C4 speaks: a contact with empty first and
    last name and the e-mail address [e] is displayed as [e (e)]. *)
Lemma contact_named_by_email_repeats_it (fields props : dict) (e : string) :
  dict_get "properties" fields = Some (VDict props) ->
  dict_get "firstname" props = Some (VStr "") ->
  dict_get "lastname" props = Some (VStr "") ->
  dict_get "email" props = Some (VStr e) ->
  e <> "" ->
  exists item,
    create_integration_item_metadata_object strptime (VDict fields) "contact" = Returned item
    /\ name item = VStr (e +:+ " (" +:+ e +:+ ")")
    /\ name item <> VStr e.
Proof.
  intros Hp Hf Hl He Hne. run_outcome. cbn [get String.eqb Ascii.eqb Bool.eqb].
  rewrite Hp. cbn [default from_option Datatypes.id get]. rewrite Hf, Hl, He.
  cbn [default from_option str]. unfold Datatypes.id. cbn [str].
  change (Text.strip ("" +:+ " " +:+ "")) with "".
  change (truthy (VStr "")) with false. cbn [negb].
  assert (truthy (VStr e) = true) as ->
    by (destruct e; [contradiction | reflexivity]).
  cbn [str]. eexists. split; [reflexivity |]. cbn [name]. split; [reflexivity |].
  intros [= H]. now apply not_own_prefix in H.
Qed.

End WithDatetime.

(** C4 at a concrete contact: first and last name are empty, the e-mail
    address is [a@b.com], and the display name is not the address but
    ["a@b.com (a@b.com)"]. *)
Theorem contact_display_name_repeats_email
    (datetime : Type) (strptime : string -> string -> option datetime) :
  let contact :=
    VDict [("id", VStr "1");
           ("properties", VDict [("firstname", VStr ""); ("lastname", VStr "");
                                 ("email", VStr "a@b.com")])] in
  exists item,
    create_integration_item_metadata_object strptime contact "contact"
      = Returned item
    /\ name item = VStr "a@b.com (a@b.com)"
    /\ name item <> VStr "a@b.com".
Proof. eexists. split; [reflexivity |]. split; [reflexivity | discriminate]. Qed.

End NormalizerTheorems.


Module FetchTheorems.
Import Py Hubspot Reading.

Section WithDatetime.
Context {datetime : Type} (strptime : string -> string -> option datetime).

Lemma calls_after {A : Type} (l calls more : list A) :
  l ++ more = l ++ calls -> calls = more.
Proof. intros H. now apply app_inv_head in H. Qed.

Lemma no_calls {A : Type} (l calls : list A) : l = l ++ calls -> calls = [].
Proof.
  intros H. rewrite <- (app_nil_r l) in H at 1. now apply app_inv_head in H.
Qed.

Ltac close_leaf :=
  lazymatch goal with
  | Hin : In (_, ?rep) _, Hfail : Http.failed ?rep = true |- _ =>
      cbn [In] in Hin;
      repeat match type of Hin with
             | _ \/ _ => destruct Hin as [Hin | Hin]
             end;
      try contradiction;
      injection Hin as <- <-;
      cbn [Http.failed] in Hfail;
      repeat match goal with
             | S : Http.is_success _ = _ |- _ => rewrite S in Hfail
             end;
      first [discriminate Hfail | reflexivity]
  end.

(** Every HTTP call of a run of [get_items_hubspot] before the last one
    was answered with a 2xx response; if any call of the run failed,
    the run ended in the 400 error of a failed fetch. *)
Lemma failed_call_aborts (net : Http.network) (credentials : string) (w w' : world)
    (out : outcome (list (IntegrationItem datetime)))
    (calls : list (Http.request * Http.reply)) (req : Http.request) (rep : Http.reply) :
  get_items_hubspot strptime net credentials w = (out, w') ->
  traffic w' = traffic w ++ calls ->
  In (req, rep) calls -> Http.failed rep = true ->
  out = Raised (HTTPException 400 FetchFailed).
Proof.
  unfold get_items_hubspot, fetch. run_monad. unfold send. intros H Ht Hin Hfail.
  repeat (step H; tidy).
  all: injection H as <- <-; cbn [traffic] in Ht.
  all: rewrite <- ?app_assoc in Ht.
  all: first [apply calls_after in Ht | apply no_calls in Ht]; subst calls; cbn [app] in Hin.
  all: close_leaf.
Qed.

Lemma traffic_after_call (net : Http.network) (req : Http.request) (w : world) :
  traffic (after_call net req w)
  = traffic w ++ [(req, Http.result (net (length (traffic w)) req))].
Proof. reflexivity. Qed.

Lemma fetch_success (net : Http.network) (access_token : value) (url item_type : string)
    (w : world) (status : Z) (body : string) (records : list value)
    (items : list (IntegrationItem datetime)) :
  Http.result (net (length (traffic w)) (list_request access_token url))
    = Http.Response status body ->
  Http.is_success status = true ->
  results_of body = Some records ->
  normalize_all strptime item_type records = Returned items ->
  fetch strptime net access_token url item_type w
  = (Returned items, after_call net (list_request access_token url) w).
Proof.
  intros Hr Hok Hres Hn. unfold fetch, results_of in *. run_monad. unfold send, after_call.
  rewrite Hr. tidy. rewrite Hok.
  destruct (Json.loads body) as [data|]; [| discriminate]. cbn [mbind option_bind] in Hres.
  destruct (get data "results" (VList [])) as [results|]; [| discriminate].
  cbn [mbind option_bind] in Hres. rewrite Hres, Hn. reflexivity.
Qed.

(** C6.  In a run of [get_items_hubspot], a list call that fails (no
    response, or a response that is not 2xx) ends the run in one 400
    error, so no list of items is returned.  When the credentials
    carry an access token, the three calls are answered with 2xx
    responses and the records of each body normalize, the run returns
    the normalized contacts, then the companies, then the deals, and
    has made the three calls in that order. *)
Theorem fetch_is_all_or_nothing :
  (forall (net : Http.network) (credentials : string) (w w' : world)
          (out : outcome (list (IntegrationItem datetime)))
          (calls : list (Http.request * Http.reply))
          (req : Http.request) (rep : Http.reply),
      get_items_hubspot strptime net credentials w = (out, w') ->
      traffic w' = traffic w ++ calls ->
      In (req, rep) calls -> Http.failed rep = true ->
      out = Raised (HTTPException 400 FetchFailed))
  /\ (forall (net : Http.network) (credentials : string) (w : world)
             (fields : dict) (access_token : value)
             (s1 s2 s3 : Z) (b1 b2 b3 : string) (r1 r2 r3 : list value)
             (contacts companies deals : list (IntegrationItem datetime)),
         Json.loads credentials = Some (VDict fields) ->
         dict_get "access_token" fields = Some access_token ->
         truthy access_token = true ->
         Http.result (net (length (traffic w)) (list_request access_token contacts_url))
           = Http.Response s1 b1 ->
         Http.result (net (length (traffic w) + 1)%nat
                        (list_request access_token companies_url))
           = Http.Response s2 b2 ->
         Http.result (net (length (traffic w) + 2)%nat
                        (list_request access_token deals_url))
           = Http.Response s3 b3 ->
         Http.is_success s1 = true -> Http.is_success s2 = true ->
         Http.is_success s3 = true ->
         results_of b1 = Some r1 -> results_of b2 = Some r2 -> results_of b3 = Some r3 ->
         normalize_all strptime "contact" r1 = Returned contacts ->
         normalize_all strptime "company" r2 = Returned companies ->
         normalize_all strptime "deal" r3 = Returned deals ->
         exists w',
           get_items_hubspot strptime net credentials w
             = (Returned (contacts ++ companies ++ deals), w')
           /\ traffic w'
              = traffic w
                ++ [(list_request access_token contacts_url, Http.Response s1 b1);
                    (list_request access_token companies_url, Http.Response s2 b2);
                    (list_request access_token deals_url, Http.Response s3 b3)]).
Proof.
  split; [apply failed_call_aborts |].
  intros net credentials w fields tok s1 s2 s3 b1 b2 b3 r1 r2 r3 contacts companies deals
    Hl Htok Ht H1 H2 H3 Ho1 Ho2 Ho3 Hr1 Hr2 Hr3 Hn1 Hn2 Hn3.
  set (w1 := after_call net (list_request tok contacts_url) w).
  set (w2 := after_call net (list_request tok companies_url) w1).
  assert (length (traffic w1) = (length (traffic w) + 1)%nat) as E1
    by (cbn; now rewrite length_app).
  assert (length (traffic w2) = (length (traffic w) + 2)%nat) as E2
    by (cbn; rewrite !length_app; cbn; lia).
  pose proof (fetch_success net tok contacts_url "contact" w s1 b1 r1 contacts
                H1 Ho1 Hr1 Hn1) as F1.
  pose proof (fetch_success net tok companies_url "company" w1 s2 b2 r2 companies) as F2.
  rewrite E1 in F2. specialize (F2 H2 Ho2 Hr2 Hn2). fold w2 in F2.
  pose proof (fetch_success net tok deals_url "deal" w2 s3 b3 r3 deals) as F3.
  rewrite E2 in F3. specialize (F3 H3 Ho3 Hr3 Hn3).
  eexists. split.
  - unfold get_items_hubspot. unfold try_except, mbind, M_bind at 1 2.
    unfold lift at 1 2, or_raise at 1 2. rewrite Hl. cbn [get]. rewrite Htok. tidy.
    rewrite Ht. cbn [negb]. unfold mbind, M_bind. fold w1 in F1. rewrite F1, F2, F3.
    reflexivity.
  - change (traffic (after_call net (list_request tok deals_url) w2)
            = traffic w
              ++ [(list_request tok contacts_url, Http.Response s1 b1);
                  (list_request tok companies_url, Http.Response s2 b2);
                  (list_request tok deals_url, Http.Response s3 b3)]).
    rewrite traffic_after_call, E2, H3. unfold w2.
    rewrite traffic_after_call, E1, H2. unfold w1.
    rewrite traffic_after_call, H1. now rewrite <- !app_assoc.
Qed.

End WithDatetime.

End FetchTheorems.


(** * Edges, footprints and the flow as a whole *)

Module FlowFacts.
Import Py Hubspot Reading Flow UrlFacts.

Lemma encoded_state_plain (nonce user_id org_id : string) :
  Forall (fun c => (Text.code c <? 128)%N = true /\ Url.literal c = true)
    (Base64.urlsafe_b64encode (Utf8.encode (Json.dumps (state_data nonce user_id org_id)))).
Proof. apply Base64Facts.urlsafe_b64encode_plain. Qed.

Lemma encoded_state_ascii (nonce user_id org_id : string) :
  Forall (fun c => (Text.code c <? 128)%N = true)
    (Base64.urlsafe_b64encode (Utf8.encode (Json.dumps (state_data nonce user_id org_id)))).
Proof. eapply Forall_impl; [apply encoded_state_plain | now intros ? []]. Qed.

(** [authorize_hubspot] in one step. *)
Lemma authorize_runs (nonce user_id org_id : string) (w : world) :
  authorize_hubspot nonce user_id org_id w
  = (Returned (auth_url (encoded_state nonce user_id org_id)),
     authorized nonce user_id org_id w).
Proof.
  unfold authorize_hubspot. run_monad.
  rewrite (Utf8Facts.decode_ascii _ (encoded_state_ascii nonce user_id org_id)).
  reflexivity.
Qed.

Lemma decode_encoded_state (nonce user_id org_id : string) :
  decode_state (encoded_state nonce user_id org_id)
  = Returned (state_data nonce user_id org_id).
Proof.
  unfold decode_state, encoded_state, Base64.urlsafe_b64decode.
  rewrite (Utf8Facts.encode_ascii_of_ascii _ (encoded_state_ascii nonce user_id org_id)).
  rewrite Base64Facts.urlsafe_there_and_back, Base64Facts.a2b_b2a_base64.
  cbn [or_raise]. unfold mbind, outcome_bind. rewrite Utf8Facts.decode_encode.
  cbn [or_raise]. now rewrite LoadsFacts.loads_dumps.
Qed.

Lemma encoded_state_present (nonce user_id org_id : string) :
  present (Some (encoded_state nonce user_id org_id)) = true.
Proof.
  pose proof (decode_encoded_state nonce user_id org_id) as H.
  destruct (encoded_state nonce user_id org_id); [discriminate H | reflexivity].
Qed.

Lemma auth_url_state (nonce user_id org_id : string) :
  query_get "state" (Url.parse_qsl (Url.query (auth_url (encoded_state nonce user_id org_id))))
  = Some (encoded_state nonce user_id org_id).
Proof.
  pose proof (encoded_state_plain nonce user_id org_id) as Hplain.
  unfold encoded_state.
  set (raw := Base64.urlsafe_b64encode _) in *.
  change (auth_url (string_of_list_ascii raw))
    with ("https://app.hubspot.com/oauth/authorize"
          +:+ String "?"
                ("client_id=&redirect_uri=&scope=crm.objects.contacts.read crm.objects.companies.read crm.objects.deals.read"
                 +:+ String "&" ("state=" +:+ string_of_list_ascii raw))).
  unfold Url.query.
  rewrite (partition_absent "#").
  2:{ rewrite contains_char_append. cbn [Text.contains_char]. rewrite contains_char_append.
      cbn [Text.contains_char]. rewrite contains_char_append.
      rewrite (literal_text raw "#" Hplain eq_refl). reflexivity. }
  cbn [fst]. rewrite partition_first by reflexivity.
  unfold Url.parse_qsl. rewrite split_at_separator, flat_map_app.
  rewrite (split_absent "&" ("state=" +:+ string_of_list_ascii raw)).
  2:{ rewrite contains_char_append. now rewrite (literal_text raw "&" Hplain eq_refl). }
  cbn [flat_map]. change ("state=" +:+ ?s) with (String "s" (String "t" (String "a" (String "t" (String "e" (String "=" s)))))).
  cbn. reflexivity.
Qed.

(** The callback on a request with a code and the state of an
    authorization, in a world that holds a blob under the state key. *)
Lemma callback_after_authorize (net : Http.network) (nonce user_id org_id code : string)
    (w : world) (saved : value) (ttl : Z) :
  code <> "" ->
  cache w !! state_key org_id user_id
    = Some {| Redis.payload := Json.dumps saved; Redis.ttl := ttl |} ->
  well_formed saved = true ->
  oauth2callback_hubspot net (callback_request code (encoded_state nonce user_id org_id)) w
  = match get saved "state" VNone with
    | None => (Raised AttributeError, w)
    | Some saved_nonce =>
        if eqb (VStr nonce) saved_nonce then
          try_except
            (response ← send net (exchange_request code);
             raise_for_status response;;
             tokens ← response_json response;
             add_key_value_redis (credentials_key org_id user_id) (Json.dumps tokens) 3600;;
             delete_key_redis (state_key org_id user_id);;
             mret close_window_page)
            (fun e =>
               match e with
               | HTTPError => raise (HTTPException 400 TokenExchangeFailed)
               | _ => raise e
               end) w
        else (Raised (HTTPException 400 StateValidationFailed), w)
    end.
Proof.
  intros Hcode Hc Hwf.
  assert (present (Some code) = true) as Hp by (destruct code; [contradiction | reflexivity]).
  unfold oauth2callback_hubspot, callback_request. cbn [query_params].
  assert (query_get "error" [("code", code); ("state", encoded_state nonce user_id org_id)]
          = None) as -> by reflexivity.
  assert (query_get "code" [("code", code); ("state", encoded_state nonce user_id org_id)]
          = Some code) as -> by reflexivity.
  assert (query_get "state" [("code", code); ("state", encoded_state nonce user_id org_id)]
          = Some (encoded_state nonce user_id org_id)) as -> by reflexivity.
  cbn [present]. fold (present (Some code)). rewrite Hp.
  fold (present (Some (encoded_state nonce user_id org_id))).
  rewrite encoded_state_present. cbn [negb orb default from_option Datatypes.id].
  unfold Datatypes.id. run_monad.
  rewrite decode_encoded_state.
  change (get (state_data nonce user_id org_id) "user_id" VNone) with (Some (VStr user_id)).
  change (get (state_data nonce user_id org_id) "org_id" VNone) with (Some (VStr org_id)).
  change (get (state_data nonce user_id org_id) "state" VNone) with (Some (VStr nonce)).
  cbn [str]. rewrite Hc. tidy.
  rewrite (AccessorFacts.present_loads _ _ (LoadsFacts.loads_dumps _ Hwf)).
  tidy. rewrite (LoadsFacts.loads_dumps _ Hwf).
  destruct (get saved "state" VNone) as [saved_nonce|]; [| reflexivity].
  destruct (eqb (VStr nonce) saved_nonce); reflexivity.
Qed.

End FlowFacts.


Module KeyFacts.
Import Hubspot.

(** Two ids joined by a colon can be told apart when the first holds no
    colon. *)
Lemma colon_joined_injective (a b a' b' : string) :
  Text.contains_char ":" a = false -> Text.contains_char ":" a' = false ->
  a +:+ ":" +:+ b = a' +:+ ":" +:+ b' -> a = a' /\ b = b'.
Proof.
  assert (forall s, "" +:+ ":" +:+ s = String ":" s) as Hnil by reflexivity.
  revert a'. induction a as [|c a IH]; intros [|c' a'] Ha Ha' H;
    rewrite ?Hnil, ?(append_cons c a), ?(append_cons c' a') in H.
  - injection H as H. now subst.
  - cbn [Text.contains_char] in Ha'. apply orb_false_elim in Ha' as [Hc _].
    injection H as <- _. discriminate Hc.
  - cbn [Text.contains_char] in Ha. apply orb_false_elim in Ha as [Hc _].
    injection H as -> _. discriminate Hc.
  - injection H as <- H.
    cbn [Text.contains_char] in Ha, Ha'.
    apply orb_false_elim in Ha as [_ Ha]. apply orb_false_elim in Ha' as [_ Ha'].
    destruct (IH a' Ha Ha' H) as [-> ->]. now split.
Qed.

End KeyFacts.

Module FlowTheorems.
Import Py Hubspot Reading Flow FlowFacts.

(** X1.  Whatever the nonce and the ids, [authorize_hubspot] returns: it
    raises nothing, makes no HTTP call, leaves the clock alone, and the
    only cache entry it touches is the one under the state key of the
    user. *)
Theorem authorize_touches_only_its_state_key (nonce user_id org_id : string) (w : world) :
  exists url w',
    authorize_hubspot nonce user_id org_id w = (Returned url, w')
    /\ traffic w' = traffic w
    /\ clock w' = clock w
    /\ forall key, key <> state_key org_id user_id -> cache w' !! key = cache w !! key.
Proof.
  do 2 eexists. split; [apply authorize_runs |]. repeat split.
  intros key Hkey. cbn [authorized with_cache cache]. now apply lookup_insert_ne.
Qed.

(** X2.  The flow from end to end.  [authorize_hubspot] returns a URL; when
    the provider sends its [state] parameter back with a code, and
    answers the token exchange with a 2xx response whose body is JSON,
    the callback returns the page that closes the window, has made the
    exchange call and no other, has stored the serialized tokens under
    the credentials key of the same user with a TTL of 3600, and has
    removed the state entry. *)
Theorem consent_flow_stores_tokens
    (net : Http.network) (nonce user_id org_id code : string) (w : world)
    (status : Z) (body : string) (tokens : value) :
  code <> "" ->
  Http.result (net (length (traffic w)) (exchange_request code)) = Http.Response status body ->
  Http.is_success status = true ->
  Json.loads body = Some tokens ->
  let started := authorize_hubspot nonce user_id org_id w in
  exists url encoded_state w',
    fst started = Returned url
    /\ query_get "state" (Url.parse_qsl (Url.query url)) = Some encoded_state
    /\ oauth2callback_hubspot net
         {| query_params := [("code", code); ("state", encoded_state)] |} (snd started)
       = (Returned close_window_page, w')
    /\ cache w' !! credentials_key org_id user_id
       = Some {| Redis.payload := Json.dumps tokens; Redis.ttl := 3600 |}
    /\ cache w' !! state_key org_id user_id = None
    /\ traffic w' = traffic w ++ [(exchange_request code, Http.Response status body)].
Proof.
  intros Hcode Hr Hok Hbody started. subst started. rewrite authorize_runs. cbn [fst snd].
  exists (auth_url (encoded_state nonce user_id org_id)), (encoded_state nonce user_id org_id).
  eexists. split; [reflexivity |]. split; [apply auth_url_state |].
  split; [| split; [| split]].
  - fold (callback_request code (encoded_state nonce user_id org_id)).
    rewrite (callback_after_authorize net nonce user_id org_id code
               (authorized nonce user_id org_id w) (state_data nonce user_id org_id) 600
               Hcode);
      [| apply lookup_insert_eq | reflexivity].
    change (get (state_data nonce user_id org_id) "state" VNone) with (Some (VStr nonce)).
    cbn [eqb]. rewrite String.eqb_refl.
    run_monad. unfold send. cbn [authorized with_cache traffic]. rewrite Hr. tidy.
    rewrite Hok, Hbody. reflexivity.
  - cbn [cache]. unfold Redis.delete_key_redis, Redis.add_key_value_redis.
    rewrite lookup_delete_ne by apply CallbackFacts.keys_differ. apply lookup_insert_eq.
  - cbn [cache]. apply lookup_delete_eq.
  - reflexivity.
Qed.

(** X3.  Only the latest authorization of a user counts: after a second
    [authorize_hubspot] for the same user and organisation, a callback
    that carries the state of the first one is answered with the 400
    error of a failed state validation, and nothing is done to the
    world. *)
Theorem second_authorization_replaces_first
    (net : Http.network) (nonce1 nonce2 user_id org_id code : string) (w : world) :
  nonce1 <> nonce2 -> code <> "" ->
  exists url1 state1 w1 url2 w2,
    authorize_hubspot nonce1 user_id org_id w = (Returned url1, w1)
    /\ query_get "state" (Url.parse_qsl (Url.query url1)) = Some state1
    /\ authorize_hubspot nonce2 user_id org_id w1 = (Returned url2, w2)
    /\ oauth2callback_hubspot net
         {| query_params := [("code", code); ("state", state1)] |} w2
       = (Raised (HTTPException 400 StateValidationFailed), w2).
Proof.
  intros Hn Hcode.
  exists (auth_url (encoded_state nonce1 user_id org_id)), (encoded_state nonce1 user_id org_id),
    (authorized nonce1 user_id org_id w),
    (auth_url (encoded_state nonce2 user_id org_id)),
    (authorized nonce2 user_id org_id (authorized nonce1 user_id org_id w)).
  split; [apply authorize_runs |]. split; [apply auth_url_state |].
  split; [apply authorize_runs |].
  fold (callback_request code (encoded_state nonce1 user_id org_id)).
  rewrite (callback_after_authorize net nonce1 user_id org_id code _
             (state_data nonce2 user_id org_id) 600 Hcode);
    [| apply lookup_insert_eq | reflexivity].
  change (get (state_data nonce2 user_id org_id) "state" VNone) with (Some (VStr nonce2)).
  cbn [eqb]. destruct (String.eqb_spec nonce1 nonce2); [contradiction | reflexivity].
Qed.

(** X4.  The keys of the cache keep users apart as long as organisation ids
    hold no colon: then two state keys, or two credentials keys, are
    equal only for the same organisation and user.  A state key is
    never a credentials key.  With a colon in an organisation id, two
    different pairs can share a key. *)
Theorem cache_keys_separate_users (org_id user_id org_id' user_id' : string) :
  Text.contains_char ":" org_id = false ->
  Text.contains_char ":" org_id' = false ->
  (state_key org_id user_id = state_key org_id' user_id' ->
   org_id = org_id' /\ user_id = user_id')
  /\ (credentials_key org_id user_id = credentials_key org_id' user_id' ->
      org_id = org_id' /\ user_id = user_id')
  /\ state_key org_id user_id <> credentials_key org_id' user_id'
  /\ state_key "a:b" "c" = state_key "a" "b:c".
Proof.
  intros Ho Ho'. split; [| split; [| split]].
  - intros H. unfold state_key in H.
    apply String.app_inj in H. now apply KeyFacts.colon_joined_injective in H.
  - intros H. unfold credentials_key in H.
    apply String.app_inj in H. now apply KeyFacts.colon_joined_injective in H.
  - discriminate.
  - reflexivity.
Qed.

End FlowTheorems.


Module CallbackRuns.
Import Py Hubspot Reading.

(** What a run of the callback that returns has read on its way, and
    that it leaves nothing under the state key. *)
Lemma callback_success_reads (net : Http.network) (request : Request) (w w' : world)
    (page : string) :
  oauth2callback_hubspot net request w = (Returned page, w') ->
  let q := query_params request in
  exists state_data user_id org_id,
    present (query_get "error" q) = false
    /\ present (query_get "code" q) = true
    /\ present (query_get "state" q) = true
    /\ decode_state (default "" (query_get "state" q)) = Returned state_data
    /\ get state_data "user_id" VNone = Some user_id
    /\ get state_data "org_id" VNone = Some org_id
    /\ cache w' !! state_key (str org_id) (str user_id) = None.
Proof.
  unfold oauth2callback_hubspot. run_monad. unfold send. intros H. cbv zeta.
  repeat (step H; tidy; try discriminate H).
  injection H as <- <-.
  match goal with
  | D : decode_state _ = Returned ?sd,
    U : get ?sd "user_id" _ = Some ?u, O : get ?sd "org_id" _ = Some ?o |- _ =>
      exists sd, u, o
  end.
  repeat match goal with
         | E : negb _ || negb _ = false |- _ =>
             apply orb_false_elim in E as [?%negb_false_iff ?%negb_false_iff]
         end.
  repeat split; try assumption.
  cbn [cache]. apply lookup_delete_eq.
Qed.

End CallbackRuns.

Module CallbackEdges.
Import Py Hubspot Reading CallbackRuns.


(** X6.  An accepted state is used up: after a run of the callback that
    returned, the same request is turned down with the 400 error of a
    failed state validation, whatever the provider would answer, and the
    second run does nothing to the world. *)
Theorem accepted_state_is_single_use
    (net : Http.network) (request : Request) (w w' : world) (page : string) :
  oauth2callback_hubspot net request w = (Returned page, w') ->
  forall net' : Http.network,
    oauth2callback_hubspot net' request w'
    = (Raised (HTTPException 400 StateValidationFailed), w').
Proof.
  intros H net'.
  apply callback_success_reads in H
    as (sd & u & o & Herr & Hcode & Hstate & Hd & Hu & Ho & Hgone).
  unfold oauth2callback_hubspot. rewrite Herr, Hcode, Hstate. cbn [negb orb].
  run_monad. rewrite Hd, Hu, Ho, Hgone. reflexivity.
Qed.

(** X7.  A run of the callback that raises leaves the cache as it was: the
    state entry is still there and no credentials are stored.  When the
    exchange call fails (no response, or a response that is not 2xx) the
    run raises the 400 error of a failed exchange. *)
Theorem failed_exchange_keeps_cache
    (net : Http.network) (request : Request) (w w' : world) (out : outcome string) :
  oauth2callback_hubspot net request w = (out, w') ->
  (forall e, out = Raised e -> cache w' = cache w)
  /\ (forall req rep,
         traffic w' = traffic w ++ [(req, rep)] -> Http.failed rep = true ->
         out = Raised (HTTPException 400 TokenExchangeFailed)).
Proof.
  unfold oauth2callback_hubspot. run_monad. unfold send. intros H.
  repeat (step H; tidy).
  all: injection H as <- <-; cbn [cache traffic].
  all: split; [intros e' He'; first [reflexivity | discriminate He'] |].
  all: intros req rep Ht Hfail.
  all: try (now apply no_growth in Ht).
  all: apply app_inj_tail in Ht as [_ [= <- <-]].
  all: repeat match goal with
              | E : Http.result _ = _ |- _ => rewrite E in Hfail
              end.
  all: cbn [Http.failed] in Hfail.
  all: repeat match goal with
              | S : Http.is_success _ = _ |- _ => rewrite S in Hfail
              end.
  all: first [reflexivity | discriminate Hfail].
Qed.

End CallbackEdges.


Module DictFacts.
Import Py.



End DictFacts.

Module AccessorEdges.
Import Py Hubspot Reading AccessorFacts.

(** X8.  Without a cached record for the user, or with an empty one, the
    accessor raises the 400 error that asks for a new authorization; it
    makes no HTTP call and leaves the world as it was. *)
Theorem accessor_without_credentials
    (net : Http.network) (user_id org_id : string) (w : world) :
  cache w !! credentials_key org_id user_id = None
  \/ (exists ttl, cache w !! credentials_key org_id user_id
                  = Some {| Redis.payload := ""; Redis.ttl := ttl |}) ->
  get_hubspot_credentials net user_id org_id w
  = (Raised (HTTPException 400 NoCredentialsFound), w).
Proof.
  unfold get_hubspot_credentials. run_monad. intros [-> | [ttl ->]]; reflexivity.
Qed.

(** X9.  An expired record that holds no [refresh_token] cannot be renewed:
    the accessor raises [KeyError], which its handler for HTTP errors
    does not catch, before any HTTP call, and the record stays in the
    cache as it is. *)
Theorem expired_record_without_refresh_token
    (net : Http.network) (user_id org_id : string) (w : world)
    (text : string) (ttl : Z) (credentials : dict) (c e : Z) :
  cache w !! credentials_key org_id user_id
    = Some {| Redis.payload := text; Redis.ttl := ttl |} ->
  Json.loads text = Some (VDict credentials) ->
  dict_get "created_at" credentials = Some (VInt c) ->
  dict_get "expires_in" credentials = Some (VInt e) ->
  c <> 0 -> e <> 0 ->
  dict_get "refresh_token" credentials = None ->
  c + e <= clock w ->
  get_hubspot_credentials net user_id org_id w = (Raised KeyError, w).
Proof.
  intros Hc Hl Hca Hex Hc0 He0 Hrt Hnow.
  pose proof (AccessorTheorems.guard_nonzero credentials c e Hca Hex Hc0 He0) as Hg.
  rewrite (accessor_guard_on net user_id org_id w text ttl credentials c e) by assumption.
  destruct (Z.leb_spec (c + e) (clock w)); [| lia].
  cbn [getitem]. rewrite Hrt. reflexivity.
Qed.



End AccessorEdges.


Module TextFacts.

Lemma ends_with_char_append (c : ascii) (s : string) :
  Text.ends_with_char c (s +:+ String c "") = true.
Proof.
  induction s as [|d s IH]; [apply Ascii.eqb_refl |].
  rewrite append_cons. cbn [Text.ends_with_char]. rewrite IH.
  destruct (s +:+ String c "") eqn:E; [| reflexivity].
  destruct s; discriminate E.
Qed.

Lemma drop_last_append (c : ascii) (s : string) :
  Text.drop_last (s +:+ String c "") = s.
Proof.
  induction s as [|d s IH]; [reflexivity |].
  rewrite append_cons. cbn [Text.drop_last]. rewrite IH.
  destruct (s +:+ String c "") eqn:E; [| reflexivity].
  destruct s; discriminate E.
Qed.

End TextFacts.

Module NormalizerEdges.
Import Py Hubspot Reading.

Section WithDatetime.
Context {datetime : Type} (strptime : string -> string -> option datetime).

(** X12.  A timestamp parses the same with and without the UTC suffix: for a
    non-empty text [s] that does not end in [Z], [s] followed by [Z] is
    parsed as [s] is. *)
Theorem utc_suffix_is_dropped (s : string) :
  s <> "" -> Text.ends_with_char "Z" s = false ->
  parse_hubspot_datetime strptime (VStr (s +:+ "Z"))
  = parse_hubspot_datetime strptime (VStr s).
Proof.
  intros Hs Hz. unfold parse_hubspot_datetime.
  rewrite TextFacts.ends_with_char_append, TextFacts.drop_last_append, Hz.
  assert (truthy (VStr s) = true) as -> by (destruct s; [contradiction | reflexivity]).
  assert (truthy (VStr (s +:+ "Z")) = true) as ->
    by (destruct s; [contradiction | reflexivity]).
  reflexivity.
Qed.

(** X13.  The loop over the records of a page normalizes them one by one and
    keeps their order: it returns a list exactly when every record
    normalizes, the items being the normalized records in the same
    order; and when it raises, the exception is that of one of the
    records, so one bad record costs the whole page. *)
Theorem normalize_all_is_pointwise (item_type : string) (records : list value) :
  (forall items,
      normalize_all strptime item_type records = Returned items
      <-> Forall2
            (fun record item =>
               create_integration_item_metadata_object strptime record item_type
               = Returned item)
            records items)
  /\ (forall e,
         normalize_all strptime item_type records = Raised e ->
         exists record,
           In record records
           /\ create_integration_item_metadata_object strptime record item_type = Raised e).
Proof.
  induction records as [|r rs [IHok IHbad]]; split.
  - intros items. cbn. split; [intros [= <-]; constructor | now inversion 1].
  - discriminate.
  - intros items. cbn [normalize_all]. unfold mbind, outcome_bind, mret, outcome_ret.
    destruct (create_integration_item_metadata_object strptime r item_type) as [i|e] eqn:Hr.
    + destruct (normalize_all strptime item_type rs) as [rest|e] eqn:Hrs.
      * split.
        -- intros [= <-]. constructor; [exact Hr | now apply IHok].
        -- intros H. apply Forall2_cons_inv_l in H as (i' & rest' & Hi & His & ->).
           apply IHok in His. congruence.
      * split; [discriminate |].
        intros H. apply Forall2_cons_inv_l in H as (i' & rest' & Hi & His & ->).
        apply IHok in His. discriminate His.
    + split; [discriminate |].
      intros H. apply Forall2_cons_inv_l in H as (i' & rest' & Hi & His & ->). congruence.
  - intros e. cbn [normalize_all]. unfold mbind, outcome_bind, mret, outcome_ret.
    destruct (create_integration_item_metadata_object strptime r item_type) as [i|e0] eqn:Hr.
    + destruct (normalize_all strptime item_type rs) as [rest|e1] eqn:Hrs; [discriminate |].
      intros [= <-]. destruct (IHbad e1 eq_refl) as (r' & Hin & Hr').
      exists r'. split; [now right | exact Hr'].
    + intros [= <-]. exists r. split; [now left | exact Hr].
Qed.

(** X14.  Which of the optional fields an item carries depends on its type
    alone: a contact has [phone] and [email], a company [phone] and
    [domain], a deal [amount], any other type none of them; and the
    [url] of an item is always [None]. *)
Theorem optional_fields_follow_the_type (record : value) (item_type : string)
    (item : IntegrationItem datetime) :
  create_integration_item_metadata_object strptime record item_type = Returned item ->
  url item = VNone
  /\ (is_Some (phone item) <-> item_type = "contact" \/ item_type = "company")
  /\ (is_Some (email item) <-> item_type = "contact")
  /\ (is_Some (domain item) <-> item_type = "company")
  /\ (is_Some (amount item) <-> item_type = "deal").
Proof.
  unfold create_integration_item_metadata_object.
  unfold mbind, mret, outcome_bind, outcome_ret.
  destruct (or_raise AttributeError (get record "id" (VStr ""))) as [raw_id|]; [| discriminate].
  destruct (or_raise AttributeError (get record "properties" (VDict [])))
    as [properties|]; [| discriminate].
  destruct (display_name properties (str raw_id) item_type) as [shown|]; [| discriminate].
  destruct (or_raise AttributeError (get record "createdAt" VNone)); [| discriminate].
  destruct (or_raise AttributeError (get record "updatedAt" VNone)); [| discriminate].
  destruct (String.eqb_spec item_type "contact") as [-> | Hcontact].
  { destruct (prop properties "phone" VNone); [| discriminate].
    destruct (prop properties "email" VNone); [| discriminate].
    intros [= <-]. cbn [url phone email domain amount].
    repeat split; try (intros []; discriminate); eauto; try discriminate;
      intros [? [=]]. }
  destruct (String.eqb_spec item_type "company") as [-> | Hcompany].
  { destruct (prop properties "phone" VNone); [| discriminate].
    destruct (prop properties "domain" VNone); [| discriminate].
    intros [= <-]. cbn [url phone email domain amount].
    repeat split; try (intros []; discriminate); eauto; try discriminate;
      intros [? [=]]. }
  destruct (String.eqb_spec item_type "deal") as [-> | Hdeal].
  { destruct (prop properties "amount" VNone); [| discriminate].
    intros [= <-]. cbn [url phone email domain amount].
    repeat split; try (intros []; discriminate); eauto; try discriminate;
      intros [? [=]]. }
  intros [= <-]. cbn [url phone email domain amount].
  repeat split; try (intros [? [=]]); try (intros []; contradiction); contradiction.
Qed.

End WithDatetime.

End NormalizerEdges.


Module NullProperties.
Import Py Hubspot Reading.

Section WithDatetime.
Context {datetime : Type} (strptime : string -> string -> option datetime).

Ltac run_outcome :=
  unfold create_integration_item_metadata_object, display_name, prop;
  unfold mbind, mret, outcome_bind, outcome_ret, or_raise.

(** X15.  A property that the provider sends as [null] is not a missing
    property: the fallback names are not used for it.  A contact whose
    first and last name are [null] and that has no e-mail address is
    displayed as [None None]; a company whose name is [null] is
    displayed as [None (domain)] when it has a domain, and has the
    display name [None] itself, not a text, when it has none. *)
Theorem null_names_are_spelled_out (fields props : dict) :
  dict_get "properties" fields = Some (VDict props) ->
  (dict_get "firstname" props = Some VNone ->
   dict_get "lastname" props = Some VNone ->
   dict_get "email" props = None ->
   exists item,
     create_integration_item_metadata_object strptime (VDict fields) "contact"
       = Returned item
     /\ name item = VStr "None None")
  /\ (forall d,
         dict_get "name" props = Some VNone ->
         dict_get "domain" props = Some (VStr d) -> d <> "" ->
         exists item,
           create_integration_item_metadata_object strptime (VDict fields) "company"
             = Returned item
           /\ name item = VStr ("None (" +:+ d +:+ ")"))
  /\ (dict_get "name" props = Some VNone ->
      dict_get "domain" props = None ->
      exists item,
        create_integration_item_metadata_object strptime (VDict fields) "company"
          = Returned item
        /\ name item = VNone).
Proof.
  intros Hp. split; [| split].
  - intros Hf Hl He. run_outcome. cbn [get String.eqb Ascii.eqb Bool.eqb].
    rewrite Hp. cbn [default from_option Datatypes.id get]. rewrite Hf, Hl, He.
    cbn [default from_option str repr]. unfold Datatypes.id.
    change (Text.strip ("None" +:+ " " +:+ "None")) with "None None".
    change (truthy (VStr "None None")) with true. cbn [negb truthy].
    eexists. split; reflexivity.
  - intros d Hn Hd Hne. run_outcome. cbn [get String.eqb Ascii.eqb Bool.eqb].
    rewrite Hp. cbn [default from_option Datatypes.id get]. rewrite Hn, Hd.
    cbn [default from_option]. unfold Datatypes.id.
    assert (truthy (VStr d) = true) as ->
      by (destruct d; [contradiction | reflexivity]).
    eexists. split; reflexivity.
  - intros Hn Hd. run_outcome. cbn [get String.eqb Ascii.eqb Bool.eqb].
    rewrite Hp. cbn [default from_option Datatypes.id get]. rewrite Hn, Hd.
    cbn [default from_option truthy]. eexists. split; reflexivity.
Qed.

(** X19.  A page without a [results] key is an empty page, while a page whose
    [results] is [null] is an error: after a 2xx answer whose body is a
    JSON object, the loop over the records makes no item in the first
    case, and raises [TypeError] in the second. *)
Theorem page_without_results_is_empty
    (net : Http.network) (access_token : value) (url item_type : string) (w : world)
    (status : Z) (body : string) (page : dict) :
  Http.result (net (length (traffic w)) (list_request access_token url))
    = Http.Response status body ->
  Http.is_success status = true ->
  Json.loads body = Some (VDict page) ->
  (dict_get "results" page = None ->
   fetch strptime net access_token url item_type w
   = (Returned [], after_call net (list_request access_token url) w))
  /\ (dict_get "results" page = Some VNone ->
      fetch strptime net access_token url item_type w
      = (Raised TypeError, after_call net (list_request access_token url) w)).
Proof.
  intros Hr Hok Hbody. unfold fetch. run_monad. unfold send, after_call.
  rewrite Hr. tidy. rewrite Hok, Hbody. cbn [get].
  split; intros ->; reflexivity.
Qed.

End WithDatetime.

End NullProperties.


Module ItemsEdges.
Import Py Hubspot Reading.

Section WithDatetime.
Context {datetime : Type} (strptime : string -> string -> option datetime).




(** X18.  What a run of [get_items_hubspot] can do to the world, however it
    ends: the cache is not written and the clock does not go back; the
    HTTP calls it makes are the first ones, in this order, of the GET of
    the contacts, of the companies and of the deals, each with the
    bearer token of the credentials and a page size of 100; so it makes
    three calls at most and asks for no second page. *)
Theorem items_run_is_read_only
    (net : Http.network) (credentials : string) (w w' : world)
    (out : outcome (list (IntegrationItem datetime))) :
  get_items_hubspot strptime net credentials w = (out, w') ->
  cache w' = cache w
  /\ clock w <= clock w'
  /\ exists calls,
      traffic w' = traffic w ++ calls
      /\ (calls = []
          \/ exists stored access_token later,
              Json.loads credentials = Some stored
              /\ get stored "access_token" VNone = Some access_token
              /\ truthy access_token = true
              /\ map fst calls ++ later
                 = [list_request access_token contacts_url;
                    list_request access_token companies_url;
                    list_request access_token deals_url]).
Proof.
  unfold get_items_hubspot, fetch. run_monad. unfold send. intros H.
  repeat (step H; tidy).
  all: injection H as <- <-; cbn [cache clock traffic].
  all: split; [reflexivity |]. all: split; [lia |].
  all: rewrite <- ?app_assoc; cbn [app].
  all: try (exists []; split; [now rewrite app_nil_r | now left]).
  all: eexists; split; [reflexivity |]; right.
  all: match goal with
       | G : get ?s "access_token" VNone = Some ?t, T : negb (truthy ?t) = false |- _ =>
           exists s, t; eexists; split; [reflexivity |]; split; [exact G |];
           split; [now apply negb_false_iff in T | cbn [map fst app]; reflexivity]
       end.
Qed.

End WithDatetime.

End ItemsEdges.


(** * The theorems at sample inputs *)

Module Witnesses.
Import Py Hubspot Reading Sample.

Ltac now_computed := vm_compute; reflexivity.

Lemma fresh_credentials_returned_as_stored_witness :
  get_hubspot_credentials net_ok "u1" "o1" world_fresh = (Returned (VDict stored), world_fresh).
Proof.
  apply (AccessorTheorems.fresh_credentials_returned_as_stored
           net_ok "u1" "o1" world_fresh (Json.dumps (VDict stored)) 3600 stored
           1700000000 1800);
    [now_computed | now_computed | now_computed | now_computed | now_computed].
Defined.

Lemma expired_credentials_refreshed_once_witness :
  let record := dict_set "created_at" (VInt 1700001802) stored_by_callback in
  traffic (snd (get_hubspot_credentials net_ok "u1" "o1" world_expired))
    = [(refresh_request (VStr "r1"), Http.Response 200 token_body)]
  /\ get_hubspot_credentials net_ok "u1" "o1" world_expired
     = (Returned (VDict record),
        {| cache := <[credentials_key "o1" "u1" :=
                        {| Redis.payload := Json.dumps (VDict record); Redis.ttl := 3600 |}]>
                      (cache world_expired);
           clock := 1700001802;
           traffic := [(refresh_request (VStr "r1"), Http.Response 200 token_body)] |})
  /\ dict_get "created_at" record = Some (VInt 1700001802)
  /\ clock world_expired <= 1700001802.
Proof.
  destruct (AccessorTheorems.expired_credentials_refreshed_once
              net_ok "u1" "o1" world_expired (Json.dumps (VDict stored)) 3600 stored
              1700000000 1800 (VStr "r1"))
    as [Hcalls Hrun];
    [now_computed | now_computed | now_computed | now_computed | discriminate | discriminate
    | now_computed | discriminate |].
  split; [exact Hcalls |].
  apply (Hrun 200 token_body stored_by_callback); now_computed.
Defined.

Lemma failed_refresh_keeps_cache_witness :
  fst (get_hubspot_credentials net_401 "u1" "o1" world_expired)
    = Raised (HTTPException 400 TokenRefreshFailed)
  /\ cache (snd (get_hubspot_credentials net_401 "u1" "o1" world_expired))
     = cache world_expired.
Proof.
  apply (proj1 (AccessorTheorems.failed_refresh_keeps_cache
                  net_401 "u1" "o1" world_expired
                  (snd (get_hubspot_credentials net_401 "u1" "o1" world_expired))
                  (fst (get_hubspot_credentials net_401 "u1" "o1" world_expired))
                  eq_refl)
           (refresh_request (VStr "r1")) (Http.Response 401 refusal_body));
    now_computed.
Defined.

Lemma callback_checks_state_nonce_witness :
  (exists d, fst (oauth2callback_hubspot net_ok request_forged world_authorized)
             = Raised (HTTPException 400 d))
  /\ snd (oauth2callback_hubspot net_ok request_forged world_authorized) = world_authorized.
Proof.
  apply (proj2 (CallbackTheorems.callback_checks_state_nonce
                  net_ok request_forged world_authorized
                  (snd (oauth2callback_hubspot net_ok request_forged world_authorized))
                  (fst (oauth2callback_hubspot net_ok request_forged world_authorized))
                  eq_refl)
           (state_data "guess" "u1" "o1") (VStr "u1") (VStr "o1"));
    [now_computed | now_computed | now_computed |].
  right. exists (state_data "N0nce" "u1" "o1"), (VStr "guess"), (VStr "N0nce").
  repeat split; now_computed.
Defined.

Lemma record_without_timestamps_is_never_refreshed_witness :
  get_hubspot_credentials net_ok "u1" "o1" (world_with (VDict stored_by_callback) 1800000000)
  = (Returned (VDict stored_by_callback), world_with (VDict stored_by_callback) 1800000000)
  /\ exists user_id org_id req status body tokens,
      traffic (snd (oauth2callback_hubspot net_ok request_back world_authorized))
      = traffic world_authorized ++ [(req, Http.Response status body)]
      /\ Json.loads body = Some tokens
      /\ cache (snd (oauth2callback_hubspot net_ok request_back world_authorized))
           !! credentials_key org_id user_id
         = Some {| Redis.payload := Json.dumps tokens; Redis.ttl := 3600 |}
      /\ forall fields,
          tokens = VDict fields -> dict_get "created_at" fields = None ->
          forall (net' : Http.network) (now : Z) (log : list (Http.request * Http.reply)),
            let later :=
              {| cache := cache (snd (oauth2callback_hubspot net_ok request_back
                                        world_authorized));
                 clock := now; traffic := log |} in
            get_hubspot_credentials net' user_id org_id later = (Returned tokens, later).
Proof.
  split.
  - apply (proj1 StoredTokens.record_without_timestamps_is_never_refreshed
             net_ok "u1" "o1" (world_with (VDict stored_by_callback) 1800000000)
             (Json.dumps (VDict stored_by_callback)) 3600 stored_by_callback);
      [now_computed | now_computed | left; now_computed].
  - apply (proj2 StoredTokens.record_without_timestamps_is_never_refreshed
             net_ok request_back world_authorized
             (snd (oauth2callback_hubspot net_ok request_back world_authorized))
             close_window_page).
    now_computed.
Defined.

Lemma item_id_is_provider_id_and_type_witness :
  exists item,
    create_integration_item_metadata_object no_dates (VDict company) "company"
      = Returned item
    /\ id item = "7_company" /\ type item = "company".
Proof.
  destruct (NormalizerTheorems.item_id_is_provider_id_and_type
              no_dates (VDict company) "company") as [Hshape Hruns].
  destruct (Hruns company [("name", VStr "Acme")] eq_refl eq_refl) as [item Hitem].
  destruct (Hshape item Hitem) as (Hty & fields & Hrec & _ & Hid).
  exists item. repeat split; [exact Hitem | | exact Hty].
  injection Hrec as <-. apply (Hid "7"). now_computed.
Defined.

Lemma company_without_domain_is_named_by_its_name_witness :
  exists item,
    create_integration_item_metadata_object no_dates (VDict company) "company"
      = Returned item
    /\ name item = VStr "Acme".
Proof.
  apply (NormalizerTheorems.company_without_domain_is_named_by_its_name
           no_dates company [("name", VStr "Acme")] (VStr "Acme"));
    now_computed.
Defined.

Lemma fetch_is_all_or_nothing_witness :
  fst (get_items_hubspot no_dates net_crm_broken access world_empty)
    = Raised (HTTPException 400 FetchFailed)
  /\ exists w',
      get_items_hubspot no_dates net_crm access world_empty
      = (Returned ([ada_item] ++ [acme_item] ++ [big_item]), w')
      /\ traffic w'
         = traffic world_empty
           ++ [(list_request (VStr "tok") contacts_url, Http.Response 200 contacts_body);
               (list_request (VStr "tok") companies_url, Http.Response 200 companies_body);
               (list_request (VStr "tok") deals_url, Http.Response 200 deals_body)].
Proof.
  split.
  - apply (proj1 (FetchTheorems.fetch_is_all_or_nothing no_dates)
             net_crm_broken access world_empty
             (snd (get_items_hubspot no_dates net_crm_broken access world_empty))
             (fst (get_items_hubspot no_dates net_crm_broken access world_empty))
             [(list_request (VStr "tok") contacts_url, Http.Response 200 contacts_body);
              (list_request (VStr "tok") companies_url, Http.Response 503 "")]
             (list_request (VStr "tok") companies_url) (Http.Response 503 ""));
      [now_computed | now_computed | right; left; now_computed | now_computed].
  - apply (proj2 (FetchTheorems.fetch_is_all_or_nothing no_dates)
             net_crm access world_empty [("access_token", VStr "tok")] (VStr "tok")
             200 200 200 contacts_body companies_body deals_body
             [ada] [acme] [big] [ada_item] [acme_item] [big_item]);
      now_computed.
Defined.

End Witnesses.

Module Examples.
Import Py Hubspot Reading Sample Scenario.

Ltac now_computed := vm_compute; reflexivity.

Lemma consent_flow_stores_tokens_witness :
  let started := authorize_hubspot "N0nce" "u1" "o1" world_empty in
  exists url encoded_state w',
    fst started = Returned url
    /\ query_get "state" (Url.parse_qsl (Url.query url)) = Some encoded_state
    /\ oauth2callback_hubspot net_ok
         {| query_params := [("code", "c0de"); ("state", encoded_state)] |} (snd started)
       = (Returned close_window_page, w')
    /\ cache w' !! credentials_key "o1" "u1"
       = Some {| Redis.payload := Json.dumps (VDict stored_by_callback); Redis.ttl := 3600 |}
    /\ cache w' !! state_key "o1" "u1" = None
    /\ traffic w'
       = traffic world_empty ++ [(exchange_request "c0de", Http.Response 200 token_body)].
Proof.
  apply (FlowTheorems.consent_flow_stores_tokens
           net_ok "N0nce" "u1" "o1" "c0de" world_empty 200 token_body
           (VDict stored_by_callback));
    [discriminate | now_computed | now_computed | now_computed].
Defined.

Lemma second_authorization_replaces_first_witness :
  exists url1 state1 w1 url2 w2,
    authorize_hubspot "N0nce" "u1" "o1" world_empty = (Returned url1, w1)
    /\ query_get "state" (Url.parse_qsl (Url.query url1)) = Some state1
    /\ authorize_hubspot "Tw0" "u1" "o1" w1 = (Returned url2, w2)
    /\ oauth2callback_hubspot net_ok
         {| query_params := [("code", "c0de"); ("state", state1)] |} w2
       = (Raised (HTTPException 400 StateValidationFailed), w2).
Proof.
  apply (FlowTheorems.second_authorization_replaces_first
           net_ok "N0nce" "Tw0" "u1" "o1" "c0de" world_empty);
    discriminate.
Defined.

Lemma cache_keys_separate_users_witness :
  (state_key "o1" "u1" = state_key "o2" "u2" -> "o1" = "o2" /\ "u1" = "u2")
  /\ (credentials_key "o1" "u1" = credentials_key "o2" "u2" -> "o1" = "o2" /\ "u1" = "u2")
  /\ state_key "o1" "u1" <> credentials_key "o2" "u2"
  /\ state_key "a:b" "c" = state_key "a" "b:c".
Proof.
  apply (FlowTheorems.cache_keys_separate_users "o1" "u1" "o2" "u2"); now_computed.
Defined.


Lemma accepted_state_is_single_use_witness :
  oauth2callback_hubspot net_ok request_back
    (snd (oauth2callback_hubspot net_ok request_back world_authorized))
  = (Raised (HTTPException 400 StateValidationFailed),
     snd (oauth2callback_hubspot net_ok request_back world_authorized)).
Proof.
  apply (CallbackEdges.accepted_state_is_single_use
           net_ok request_back world_authorized
           (snd (oauth2callback_hubspot net_ok request_back world_authorized))
           close_window_page).
  now_computed.
Defined.

Lemma failed_exchange_keeps_cache_witness :
  cache (snd (oauth2callback_hubspot net_401 request_back world_authorized))
    = cache world_authorized
  /\ fst (oauth2callback_hubspot net_401 request_back world_authorized)
     = Raised (HTTPException 400 TokenExchangeFailed).
Proof.
  destruct (CallbackEdges.failed_exchange_keeps_cache
              net_401 request_back world_authorized
              (snd (oauth2callback_hubspot net_401 request_back world_authorized))
              (fst (oauth2callback_hubspot net_401 request_back world_authorized)))
    as [Hkept Hfailed]; [now_computed |].
  split.
  - apply (Hkept (HTTPException 400 TokenExchangeFailed)). now_computed.
  - apply (Hfailed (exchange_request "c0de") (Http.Response 401 refusal_body));
      now_computed.
Defined.

Lemma accessor_without_credentials_witness :
  get_hubspot_credentials net_ok "u1" "o1" world_empty
  = (Raised (HTTPException 400 NoCredentialsFound), world_empty).
Proof.
  apply (AccessorEdges.accessor_without_credentials net_ok "u1" "o1" world_empty).
  left. now_computed.
Defined.

Lemma expired_record_without_refresh_token_witness :
  get_hubspot_credentials net_ok "u1" "o1"
    (world_with (VDict stored_without_refresh_token) 1700001800)
  = (Raised KeyError, world_with (VDict stored_without_refresh_token) 1700001800).
Proof.
  apply (AccessorEdges.expired_record_without_refresh_token
           net_ok "u1" "o1" (world_with (VDict stored_without_refresh_token) 1700001800)
           (Json.dumps (VDict stored_without_refresh_token)) 3600
           stored_without_refresh_token 1700000000 1800);
    [now_computed | now_computed | now_computed | now_computed | discriminate | discriminate
    | now_computed | discriminate].
Defined.



Lemma utc_suffix_is_dropped_witness :
  parse_hubspot_datetime echo (VStr ("2024-05-01T10:00:00.250" +:+ "Z"))
  = parse_hubspot_datetime echo (VStr "2024-05-01T10:00:00.250").
Proof.
  apply (NormalizerEdges.utc_suffix_is_dropped echo "2024-05-01T10:00:00.250");
    [discriminate | now_computed].
Defined.

Lemma optional_fields_follow_the_type_witness :
  url acme_item = VNone
  /\ (is_Some (phone acme_item) <-> "company" = "contact" \/ "company" = "company")
  /\ (is_Some (email acme_item) <-> "company" = "contact")
  /\ (is_Some (domain acme_item) <-> "company" = "company")
  /\ (is_Some (amount acme_item) <-> "company" = "deal").
Proof.
  apply (NormalizerEdges.optional_fields_follow_the_type no_dates acme "company" acme_item).
  now_computed.
Defined.

Lemma null_names_are_spelled_out_witness :
  (exists item,
      create_integration_item_metadata_object no_dates
        (VDict [("id", VStr "1"); ("properties", VDict nameless_contact)]) "contact"
        = Returned item
      /\ name item = VStr "None None")
  /\ (exists item,
         create_integration_item_metadata_object no_dates
           (VDict [("id", VStr "7"); ("properties", VDict nameless_company)]) "company"
           = Returned item
         /\ name item = VStr "None (acme.io)")
  /\ (exists item,
         create_integration_item_metadata_object no_dates
           (VDict [("id", VStr "8"); ("properties", VDict blank_company)]) "company"
           = Returned item
         /\ name item = VNone).
Proof.
  split; [| split].
  - apply (proj1 (NullProperties.null_names_are_spelled_out no_dates
                    [("id", VStr "1"); ("properties", VDict nameless_contact)]
                    nameless_contact eq_refl));
      now_computed.
  - apply (proj1 (proj2 (NullProperties.null_names_are_spelled_out no_dates
                           [("id", VStr "7"); ("properties", VDict nameless_company)]
                           nameless_company eq_refl))
             "acme.io");
      [now_computed | now_computed | discriminate].
  - apply (proj2 (proj2 (NullProperties.null_names_are_spelled_out no_dates
                           [("id", VStr "8"); ("properties", VDict blank_company)]
                           blank_company eq_refl)));
      now_computed.
Defined.

Lemma page_without_results_is_empty_witness :
  fetch no_dates (net_page bare_page) (VStr "tok") contacts_url "contact" world_empty
    = (Returned [],
       after_call (net_page bare_page) (list_request (VStr "tok") contacts_url) world_empty)
  /\ fetch no_dates (net_page null_page) (VStr "tok") contacts_url "contact" world_empty
     = (Raised TypeError,
        after_call (net_page null_page) (list_request (VStr "tok") contacts_url) world_empty).
Proof.
  split.
  - apply (proj1 (NullProperties.page_without_results_is_empty no_dates
                    (net_page bare_page) (VStr "tok") contacts_url "contact" world_empty
                    200 (Json.dumps (VDict bare_page)) bare_page
                    eq_refl eq_refl ltac:(now_computed))).
    now_computed.
  - apply (proj2 (NullProperties.page_without_results_is_empty no_dates
                    (net_page null_page) (VStr "tok") contacts_url "contact" world_empty
                    200 (Json.dumps (VDict null_page)) null_page
                    eq_refl eq_refl ltac:(now_computed))).
    now_computed.
Defined.



Lemma items_run_is_read_only_witness :
  let run := get_items_hubspot no_dates net_crm_broken access world_empty in
  cache (snd run) = cache world_empty
  /\ clock world_empty <= clock (snd run)
  /\ exists calls,
      traffic (snd run) = traffic world_empty ++ calls
      /\ (calls = []
          \/ exists stored access_token later,
              Json.loads access = Some stored
              /\ get stored "access_token" VNone = Some access_token
              /\ truthy access_token = true
              /\ map fst calls ++ later
                 = [list_request access_token contacts_url;
                    list_request access_token companies_url;
                    list_request access_token deals_url]).
Proof.
  apply (ItemsEdges.items_run_is_read_only no_dates net_crm_broken access world_empty
           (snd (get_items_hubspot no_dates net_crm_broken access world_empty))
           (fst (get_items_hubspot no_dates net_crm_broken access world_empty))).
  now_computed.
Defined.

End Examples.


(** * Where the specification and the code part *)

Module Divergences.
Import Py Hubspot Reading Sample.

(** C2 as it is written fails twice.  A stored record with
    [expires_in] zero holds both fields and is read after
    [created_at + expires_in], and yet the accessor makes no HTTP call
    and returns the record with its old [created_at].  And when the
    provider refuses the refresh, the accessor makes its one call and
    then raises: it returns no record and stores none. *)
Lemma expired_credentials_not_always_refreshed :
  (Redis.get_value_redis (credentials_key "o1" "u1") (cache world_zero)
     = Some (Json.dumps (VDict stored_zero))
   /\ dict_get "created_at" stored_zero = Some (VInt 1700000000)
   /\ dict_get "expires_in" stored_zero = Some (VInt 0)
   /\ 1700000000 + 0 <= clock world_zero
   /\ get_hubspot_credentials net_ok "u1" "o1" world_zero
      = (Returned (VDict stored_zero), world_zero)
   /\ traffic world_zero = [])
  /\ (1700000000 + 1800 <= clock world_expired
      /\ fst (get_hubspot_credentials net_401 "u1" "o1" world_expired)
         = Raised (HTTPException 400 TokenRefreshFailed)
      /\ cache (snd (get_hubspot_credentials net_401 "u1" "o1" world_expired))
         = cache world_expired).
Proof. repeat split; first [vm_compute; reflexivity | vm_compute; discriminate]. Qed.

End Divergences.
